(** * server.js: a session-authenticated Express application

    A shallow embedding of [src/server.js]: the two Sequelize models
    ([Role], [User]) over a SQLite store, the bootstrap that runs after
    [sequelize.sync], the two guards ([isAuthenticated], [hasRole]) and the
    route handlers, with the express-session layer around them.

    The libraries the program calls (Sequelize, bcrypt, express-session) are
    modelled by what the program observes of them:
    - a table is the list of its rows in rowid order, with the SQLite
      AUTOINCREMENT counter next to it; a store is a database file whose
      two tables exist (a file on which no [sync] has succeeded yet has
      none, and is not a value of the model);
    - every Sequelize call is one interaction with the store, which either
      answers or fails with a connection-level error; the failures are read
      from a schedule carried by the world ([faults]);
    - bcrypt is a pair of functions [bcrypt_hash] and [bcrypt_compare], taken
      as Section variables, with the salt drawn from a counter in the world;
    - the session store is the default MemoryStore of express-session, a
      finite map from session ids to session data;
    - the console holds the lines the program's own code writes with
      [console.log] and [console.error]; what the libraries print themselves
      (the statements Sequelize logs, the errors Express logs) is not
      recorded;
    - what Express and Node do with a middleware whose promise rejects, and
      how Node prints an error object, depend on their versions, which the
      source does not fix: the world carries both ([runtime], [inspect]).
    Static files ([express.static]) and the EJS views are outside the model:
    a rendered view is recorded by its name. *)

From Stdlib Require Import ZArith String Ascii List Lia.
From stdpp Require Import base decidable option list gmap strings.

Local Open Scope Z_scope.
Local Open Scope string_scope.

(** ** Data model *)

(** A row of the [Role] table ([sequelize.define("Role", ...)]). *)
Record Role : Type := mkRole {
  role_id : Z;
  role_name : string;
}.

(** A row of the [User] table ([sequelize.define("User", ...)]). *)
Record User : Type := mkUser {
  user_id : Z;
  user_login : string;
  user_password : string;
  user_roleId : Z;
}.

(** The SQLite file once its tables exist: both tables in rowid order and,
    for each, the largest rowid handed out so far (the [sqlite_sequence]
    entry that [autoIncrement: true] maintains). A file on which no [sync]
    has succeeded yet has no tables: every statement on it fails in SQLite,
    and no value of this type stands for it. *)
Record Store : Type := mkStore {
  roles : list Role;
  users : list User;
  role_seq : Z;
  user_seq : Z;
}.

(** The object the login handler stores under [req.session.user]. *)
Record Identity : Type := mkIdentity {
  id : Z;
  login : string;
  role : string;
}.

(** The data of a session: only its [user] property is ever used;
    [None] is JavaScript's [undefined]. *)
Record SessionData : Type := mkSession {
  user : option Identity;
}.

(** Session ids are opaque tokens. *)
Definition SID : Type := nat.

#[global] Instance Role_eq_dec : EqDecision Role.
Proof. solve_decision. Defined.

#[global] Instance User_eq_dec : EqDecision User.
Proof. solve_decision. Defined.

#[global] Instance Identity_eq_dec : EqDecision Identity.
Proof. solve_decision. Defined.

#[global] Instance SessionData_eq_dec : EqDecision SessionData.
Proof. solve_decision. Defined.

(** What a [catch] block can receive. *)
Inductive JsError : Type :=
| ConnectionError (msg : string)
| UniqueConstraintError (msg : string)
| ForeignKeyConstraintError (msg : string)
| ValidationError (msg : string)
| QueryError (msg : string)
| BcryptError (msg : string)
| TypeError (msg : string).

(** [error.message] *)
Definition message (e : JsError) : string :=
  match e with
  | ConnectionError m | UniqueConstraintError m | ForeignKeyConstraintError m
  | ValidationError m | QueryError m | BcryptError m | TypeError m => m
  end.

(** An infrastructure failure, as opposed to a constraint violation or a
    programming error. *)
Definition is_infrastructure (e : JsError) : bool :=
  match e with
  | ConnectionError _ => true
  | _ => false
  end.

(** The Express that is installed. Express 5 passes the rejection of an
    [async] middleware to its error handling; Express 4 does not see it. *)
Inductive Runtime : Type := Express5 | Express4.

(** Everything a request can read or change: the SQLite store, the
    MemoryStore of sessions, the generator of session ids, the source of
    salts, the schedule of store failures, the console (the lines the
    program's own code writes), the Express the process runs on and the
    way its Node prints an error object. *)
Record World : Type := mkWorld {
  db : Store;
  sessions : gmap SID SessionData;
  next_sid : SID;
  rng : nat;
  faults : list (option string);
  console : list string;
  runtime : Runtime;
  inspect : JsError -> string;
}.

Definition with_db (d : Store) (w : World) : World :=
  mkWorld d (sessions w) (next_sid w) (rng w) (faults w) (console w)
          (runtime w) (inspect w).

Definition with_sessions (s : gmap SID SessionData) (w : World) : World :=
  mkWorld (db w) s (next_sid w) (rng w) (faults w) (console w) (runtime w)
          (inspect w).

Definition with_next_sid (n : SID) (w : World) : World :=
  mkWorld (db w) (sessions w) n (rng w) (faults w) (console w) (runtime w)
          (inspect w).

Definition with_rng (n : nat) (w : World) : World :=
  mkWorld (db w) (sessions w) (next_sid w) n (faults w) (console w)
          (runtime w) (inspect w).

Definition with_faults (f : list (option string)) (w : World) : World :=
  mkWorld (db w) (sessions w) (next_sid w) (rng w) f (console w) (runtime w)
          (inspect w).

Definition with_console (c : list string) (w : World) : World :=
  mkWorld (db w) (sessions w) (next_sid w) (rng w) (faults w) c (runtime w)
          (inspect w).

Definition with_runtime (r : Runtime) (w : World) : World :=
  mkWorld (db w) (sessions w) (next_sid w) (rng w) (faults w) (console w) r
          (inspect w).

(** ** Asynchronous code that may throw *)

Inductive Result (A : Type) : Type :=
| Ok (a : A)
| Throw (e : JsError).

Arguments Ok {A} a.
Arguments Throw {A} e.

Definition M (A : Type) : Type := World -> Result A * World.

Definition ret {A : Type} (a : A) : M A := fun w => (Ok a, w).

Definition throw {A : Type} (e : JsError) : M A := fun w => (Throw e, w).

Definition bind {A B : Type} (m : M A) (k : A -> M B) : M B :=
  fun w =>
    match m w with
    | (Ok a, w1) => k a w1
    | (Throw e, w1) => (Throw e, w1)
    end.

(** [try { body } catch (error) { handler }] *)
Definition try_catch {A : Type} (body : M A) (handler : JsError -> M A) : M A :=
  fun w =>
    match body w with
    | (Ok a, w1) => (Ok a, w1)
    | (Throw e, w1) => handler e w1
    end.

Notation "'let!' x ':=' m 'in' k" := (bind m (fun x => k))
  (at level 10, x name, m at level 100, k at level 200).

Notation "m ';;;' k" := (bind m (fun _ => k))
  (at level 100, k at level 200, right associativity).

(** [console.log(text)], and [console.error] with one text *)
Definition console_log (line : string) : M unit :=
  fun w => (Ok tt, with_console (console w ++ [line]) w).

(** [console.error(err)]: the error object as Node prints it *)
Definition console_error (e : JsError) : M unit :=
  fun w => console_log (inspect w e) w.

(** [console.error(text, err)]: the text, a space and the error object as
    Node prints it *)
Definition console_error_with (text : string) (e : JsError) : M unit :=
  fun w => console_log (text ++ " " ++ inspect w e) w.

(** The double quote character, for texts that contain it. *)
Definition dq : string := String (ascii_of_nat 34) EmptyString.

(** ** The persistence layer (Sequelize over SQLite) *)

(** One interaction with the store: the head of the failure schedule says
    whether the store answers; when it does, [f] is the statement run on it.
    An exhausted schedule means no further failures. (Sequelize also prints
    each statement it runs, through its default [logging]; those lines are
    the library's and are not part of [console].) *)
Definition query {A : Type} (f : Store -> Result A * Store) : M A :=
  fun w =>
    match faults w with
    | Some msg :: rest => (Throw (ConnectionError msg), with_faults rest w)
    | None :: rest =>
        let (r, d) := f (db w) in (r, with_db d (with_faults rest w))
    | [] =>
        let (r, d) := f (db w) in (r, with_db d w)
    end.

(** The largest rowid of a table; 0 for the empty table. *)
Definition max_id {A : Type} (key : A -> Z) (rows : list A) : Z :=
  fold_right (fun r acc => Z.max (key r) acc) 0 rows.

(** The rowid AUTOINCREMENT picks: one more than the largest ever used. *)
Definition next_id {A : Type} (key : A -> Z) (seq : Z) (rows : list A) : Z :=
  1 + Z.max seq (max_id key rows).

Definition role_by_name (name : string) (d : Store) : option Role :=
  find (fun r => bool_decide (role_name r = name)) (roles d).

Definition role_by_id (i : Z) (d : Store) : option Role :=
  find (fun r => bool_decide (role_id r = i)) (roles d).

Definition user_by_login (l : string) (d : Store) : option User :=
  find (fun u => bool_decide (user_login u = l)) (users d).

Definition user_by_id (i : Z) (d : Store) : option User :=
  find (fun u => bool_decide (user_id u = i)) (users d).

(** INSERT INTO Roles: [name] is unique. A failed statement leaves the store
    as it was, counter included. *)
Definition insert_role (name : string) (d : Store) : Result Role * Store :=
  match role_by_name name d with
  | Some _ => (Throw (UniqueConstraintError "Validation error"), d)
  | None =>
      let r := mkRole (next_id role_id (role_seq d) (roles d)) name in
      (Ok r, mkStore (roles d ++ [r]) (users d) (role_id r) (user_seq d))
  end.

(** INSERT INTO Users: [login] is non-null and unique, [roleId] references
    [Role.id]. *)
Definition insert_user (l : option string) (password : string) (roleId : Z)
    (d : Store) : Result User * Store :=
  match l with
  | None =>
      (Throw (ValidationError "notNull Violation: User.login cannot be null"), d)
  | Some l =>
      match user_by_login l d with
      | Some _ => (Throw (UniqueConstraintError "Validation error"), d)
      | None =>
          match role_by_id roleId d with
          | None =>
              (Throw (ForeignKeyConstraintError
                        "SQLITE_CONSTRAINT: FOREIGN KEY constraint failed"), d)
          | Some _ =>
              let u := mkUser (next_id user_id (user_seq d) (users d))
                              l password roleId in
              (Ok u, mkStore (roles d) (users d ++ [u]) (role_seq d) (user_id u))
          end
      end
  end.

(** A [User] loaded with [include: Role]: the row and, from the left outer
    join on [roleId], its role if the store has one. *)
Record UserWithRole : Type := mkUserWithRole {
  row : User;
  Role_of : option Role;
}.

Definition include_Role (d : Store) (u : User) : UserWithRole :=
  mkUserWithRole u (role_by_id (user_roleId u) d).

(** [sequelize.sync({ force: false })]: CREATE TABLE IF NOT EXISTS, which
    on tables that exist changes nothing, whether it succeeds or fails. *)
Definition sequelize_sync : M unit :=
  query (fun d => (Ok tt, d)).

(** [Role.findOne({ where: { name } })] *)
Definition Role_findOne (name : string) : M (option Role) :=
  query (fun d => (Ok (role_by_name name d), d)).

(** [Role.findOrCreate({ where: { name }, defaults: { name } })]: the row
    and whether it was created. *)
Definition Role_findOrCreate (name : string) : M (Role * bool) :=
  query (fun d =>
    match role_by_name name d with
    | Some r => (Ok (r, false), d)
    | None =>
        match insert_role name d with
        | (Ok r, d1) => (Ok (r, true), d1)
        | (Throw e, d1) => (Throw e, d1)
        end
    end).

(** [User.count()] *)
Definition User_count : M Z :=
  query (fun d => (Ok (Z.of_nat (List.length (users d))), d)).

(** [User.create({ login, password, roleId })]: Sequelize validates the
    values ([allowNull: false]) before it runs any statement, so a missing
    login is refused whether or not the store would answer. *)
Definition User_create (l : option string) (password : string) (roleId : Z)
    : M User :=
  match l with
  | None =>
      throw (ValidationError "notNull Violation: User.login cannot be null")
  | Some l => query (insert_user (Some l) password roleId)
  end.

(** [User.findOne({ where: { login }, include: Role })]; an [undefined]
    value in [where] is refused by Sequelize before any statement runs. *)
Definition User_findOne (l : option string) : M (option UserWithRole) :=
  match l with
  | None =>
      throw (QueryError ("WHERE parameter " ++ dq ++ "login" ++ dq ++
                         " has invalid " ++ dq ++ "undefined" ++ dq ++ " value"))
  | Some l =>
      query (fun d => (Ok (option_map (include_Role d) (user_by_login l d)), d))
  end.

(** [User.findByPk(id, { include: Role })] *)
Definition User_findByPk (i : Z) : M (option UserWithRole) :=
  query (fun d => (Ok (option_map (include_Role d) (user_by_id i d)), d)).

(** ** HTTP requests and responses *)

Inductive Method : Type := GET | POST.

(** The path of a request, as the router distinguishes it. *)
Inductive Path : Type :=
| path_root
| path_register
| path_login
| path_profile
| path_admin
| path_logout
| path_other (p : string).

(** [req.body] after [bodyParser.urlencoded]: the two fields the handlers
    read, each a string or, when the form did not send it, [undefined]. *)
Record Body : Type := mkBody {
  body_login : option string;
  body_password : option string;
}.

(** A request as it arrives: the session cookie is the client's token. *)
Record Request : Type := mkRequest {
  method : Method;
  path : Path;
  cookie : option SID;
  form : Body;
}.

(** What the client gets. The first three are what a handler does with
    [res]. The last two are for an [async] middleware whose promise rejects,
    for which the program itself writes nothing: under Express 5 the
    rejection reaches Express's default error handler, which answers with
    its error page and status 500; under Express 4 the rejection is
    unhandled and the request is never answered (a Node that ends the
    process on an unhandled rejection ends it there). *)
Inductive Reply : Type :=
| Redirect (location : string)
| Send (status : Z) (text : string)
| Render (view : string)
| NotFound
| ErrorPage (e : JsError)
| Unanswered (e : JsError).

(** The outcome of a rejected middleware promise on a runtime. *)
Definition rejection (r : Runtime) (e : JsError) : Reply :=
  match r with
  | Express5 => ErrorPage e
  | Express4 => Unanswered e
  end.

Definition status_of (r : Reply) : option Z :=
  match r with
  | Redirect _ => Some 302
  | Send s _ => Some s
  | Render _ => Some 200
  | NotFound => Some 404
  | ErrorPage _ => Some 500
  | Unanswered _ => None
  end.

Definition is_redirect (r : Reply) : bool :=
  match r with
  | Redirect _ => true
  | _ => false
  end.

Record Response : Type := mkResponse {
  reply : Reply;
  set_cookie : option SID;
}.

(** [req] as a handler sees it, after the body parser and the session
    middleware have run. *)
Record Req : Type := mkReq {
  req_body : Body;
  sessionID : SID;
  session : SessionData;
}.

(** A handler answers and leaves [req.session] behind: [None] once the
    session has been destroyed. *)
Definition Handler : Type := Req -> M (Reply * option SessionData).

(** ** The session layer (express-session with its MemoryStore) *)

(** [MemoryStore.prototype.destroy]: deletes the entry and calls back
    without an error. *)
Definition MemoryStore_destroy (sid : SID) : M (option string) :=
  fun w => (Ok None, with_sessions (delete sid (sessions w)) w).

(** [Session.prototype.destroy(fn)] over a store: [req.session] is deleted,
    the store's [destroy] is called for the id, and [fn] receives the
    store's error, if any. *)
Definition Session_destroy_on (store_destroy : SID -> M (option string))
    (req : Req) (fn : option string -> M Reply)
    : M (Reply * option SessionData) :=
  let! err := store_destroy (sessionID req) in
  let! r := fn err in
  ret (r, None).

(** [req.session.destroy(fn)] in this program: [session(...)] is given no
    [store], so the store is the MemoryStore. *)
Definition Session_destroy (req : Req) (fn : option string -> M Reply)
    : M (Reply * option SessionData) :=
  Session_destroy_on MemoryStore_destroy req fn.

(** The start of a request: the cookie's session if the store knows it,
    otherwise a fresh, empty one under a new id. The flag tells a new
    session from a loaded one. *)
Definition load_session (c : option SID) (w : World)
    : SID * SessionData * bool * World :=
  let generate :=
    (next_sid w, mkSession None, true, with_next_sid (S (next_sid w)) w) in
  match c with
  | Some sid =>
      match sessions w !! sid with
      | Some s => (sid, s, false, w)
      | None => generate
      end
  | None => generate
  end.

(** The end of a response, with [resave: false] and
    [saveUninitialized: false]: a session is written to the store only if
    the handler changed it, and the cookie is set only for a new session
    that is written. Nothing happens for a destroyed session. *)
Definition end_response (sid : SID) (is_new : bool) (before : SessionData)
    (after : option SessionData) (w : World) : option SID * World :=
  match after with
  | None => (None, w)
  | Some s =>
      if decide (s = before) then (None, w)
      else (if is_new then Some sid else None,
            with_sessions (<[sid := s]> (sessions w)) w)
  end.

(** ** The application *)

(** The [bcrypt] module: the hash of a password under a salt, and the check
    of a password against a stored hash. *)
Class Bcrypt : Type := {
  bcrypt_hash : string -> nat -> string;
  bcrypt_compare : string -> string -> bool;
}.

Section Application.

Context {bcrypt : Bcrypt}.

(** [bcrypt.hash(data, 10)]: a fresh salt for every call. *)
Definition bcrypt_hash_async (data : option string) : M string :=
  match data with
  | None => throw (BcryptError "data and salt arguments required")
  | Some p => fun w => (Ok (bcrypt_hash p (rng w)), with_rng (S (rng w)) w)
  end.

(** [bcrypt.compare(data, hash)] *)
Definition bcrypt_compare_async (data : option string) (h : string) : M bool :=
  match data with
  | None => throw (BcryptError "data and hash arguments required")
  | Some p => ret (bcrypt_compare p h)
  end.

(** [user.Role.name]: a [TypeError] when the join found no role. *)
Definition Role_name (u : UserWithRole) : M string :=
  match Role_of u with
  | Some r => ret (role_name r)
  | None => throw (TypeError "Cannot read properties of null (reading 'name')")
  end.

(** *** Bootstrap: the promise chain after [sequelize.sync] *)

Definition bootstrap : M unit :=
  try_catch
    (sequelize_sync ;;;
     console_log "База данных синхронизирована" ;;;
     let! userRole := Role_findOrCreate "user" in
     let! adminRole := Role_findOrCreate "admin" in
     let! usersCount := User_count in
     if (usersCount =? 0)%Z then
       let! hashedPassword := bcrypt_hash_async (Some "admin") in
       User_create (Some "admin") hashedPassword (role_id (fst adminRole)) ;;;
       console_log "Администратор создан"
     else ret tt)
    (fun err => console_error err).

(** The world once the chain has settled. *)
Definition startup (w : World) : World := snd (bootstrap w).

(** *** Guards *)

Definition isAuthenticated (next : Handler) : Handler :=
  fun req =>
    match user (session req) with
    | Some _ => next req
    | None => ret (Redirect "/login", Some (session req))
    end.

Definition forbidden_text : string := "Доступ запрещен".

Definition hasRole (roleName : string) (next : Handler) : Handler :=
  fun req =>
    match user (session req) with
    | Some ident =>
        let! found := User_findByPk (id ident) in
        match found with
        | Some u =>
            let! name := Role_name u in
            if bool_decide (name = roleName) then next req
            else ret (Send 403 forbidden_text, Some (session req))
        | None => ret (Send 403 forbidden_text, Some (session req))
        end
    | None => ret (Redirect "/login", Some (session req))
    end.

(** *** Routes *)

Definition get_root : Handler :=
  fun req =>
    match user (session req) with
    | Some _ => ret (Redirect "/profile", Some (session req))
    | None => ret (Redirect "/login", Some (session req))
    end.

Definition get_register : Handler :=
  fun req => ret (Render "register", Some (session req)).

Definition register_error_prefix : string := "Ошибка регистрации: ".

Definition post_register : Handler :=
  fun req =>
    let login := body_login (req_body req) in
    let password := body_password (req_body req) in
    let! r :=
      try_catch
        (let! role := Role_findOne "user" in
         match role with
         | None => ret (Send 400 "Роль не найдена")
         | Some role =>
             let! hashedPassword := bcrypt_hash_async password in
             User_create login hashedPassword (role_id role) ;;;
             ret (Redirect "/login")
         end)
        (fun error =>
           console_error_with "Ошибка регистрации:" error ;;;
           ret (Send 400 (register_error_prefix ++ message error)))
    in
    ret (r, Some (session req)).

Definition get_login : Handler :=
  fun req => ret (Render "login", Some (session req)).

Definition login_failed_text : string := "Неверный логин или пароль".

Definition server_error_prefix : string := "Ошибка сервера: ".

Definition post_login : Handler :=
  fun req =>
    let login := body_login (req_body req) in
    let password := body_password (req_body req) in
    try_catch
      (let! found := User_findOne login in
       match found with
       | Some u =>
           let! matches := bcrypt_compare_async password (user_password (row u)) in
           if (matches : bool) then
             let! name := Role_name u in
             ret (Redirect "/profile",
                  Some (mkSession
                          (Some (mkIdentity (user_id (row u))
                                            (user_login (row u)) name))))
           else ret (Send 401 login_failed_text, Some (session req))
       | None => ret (Send 401 login_failed_text, Some (session req))
       end)
      (fun error =>
         console_error_with "Ошибка входа:" error ;;;
         ret (Send 500 (server_error_prefix ++ message error),
              Some (session req))).

Definition logout_link : string :=
  "<a href=" ++ dq ++ "/logout" ++ dq ++ ">Выйти</a>".

(** The page of [/profile] for a login. *)
Definition greeting (l : string) : string :=
  "Добро пожаловать, " ++ l ++ "! " ++ logout_link.

Definition profile_page : Handler :=
  fun req =>
    match user (session req) with
    | Some ident => ret (Send 200 (greeting (login ident)), Some (session req))
    | None =>
        throw (TypeError "Cannot read properties of undefined (reading 'login')")
    end.

Definition get_profile : Handler := isAuthenticated profile_page.

Definition admin_text : string :=
  "Добро пожаловать в админ-панель! Только для администраторов.".

Definition admin_page : Handler :=
  fun req => ret (Send 200 admin_text, Some (session req)).

Definition get_admin : Handler :=
  isAuthenticated (hasRole "admin" admin_page).

(** The callback of [req.session.destroy] in [/logout]. *)
Definition logout_callback (err : option string) : M Reply :=
  match err with
  | Some e => console_log ("Ошибка при выходе: " ++ e)
  | None => ret tt
  end ;;;
  ret (Redirect "/").

Definition get_logout : Handler :=
  fun req => Session_destroy req logout_callback.

(** [app.get] and [app.post]: the handler registered for a method and a
    path, if any. *)
Definition router (m : Method) (p : Path) : option Handler :=
  match m, p with
  | GET, path_root => Some get_root
  | GET, path_register => Some get_register
  | POST, path_register => Some post_register
  | GET, path_login => Some get_login
  | POST, path_login => Some post_login
  | GET, path_profile => Some get_profile
  | GET, path_admin => Some get_admin
  | GET, path_logout => Some get_logout
  | _, _ => None
  end.

(** One request through the session middleware and the router. When the
    handler's promise rejects, the world returned is the one at that
    moment. *)
Definition app (req : Request) (w : World) : Response * World :=
  let '(sid, sess, is_new, w1) := load_session (cookie req) w in
  match router (method req) (path req) with
  | None => (mkResponse NotFound None, w1)
  | Some handler =>
      match handler (mkReq (form req) sid sess) w1 with
      | (Ok (r, after), w2) =>
          let (c, w3) := end_response sid is_new sess after w2 in
          (mkResponse r c, w3)
      | (Throw e, w2) => (mkResponse (rejection (runtime w2) e) None, w2)
      end
  end.

End Application.

(** ** Vocabulary of the properties *)

(** The identity a request carries: the [user] of the session its cookie
    names in the store, if any. *)
Definition current_user (c : option SID) (w : World) : option Identity :=
  match c with
  | Some sid =>
      match sessions w !! sid with
      | Some s => user s
      | None => None
      end
  | None => None
  end.

(** The token the client holds after an exchange. *)
Definition client_token (req : Request) (resp : Response) : option SID :=
  match set_cookie resp with
  | Some sid => Some sid
  | None => cookie req
  end.

(** What the failure schedule says about the next interaction. *)
Definition next_fault (w : World) : option string :=
  match faults w with
  | f :: _ => f
  | [] => None
  end.

(** No failure of the store is scheduled. *)
Definition healthy (w : World) : Prop :=
  Forall (fun f => f = None) (faults w).

(** The constraints of the schema: primary keys, the two [unique] columns
    and the reference from [User.roleId] to [Role.id]. *)
Definition wf_store (d : Store) : Prop :=
  NoDup (map role_id (roles d)) /\
  NoDup (map role_name (roles d)) /\
  NoDup (map user_id (users d)) /\
  NoDup (map user_login (users d)) /\
  Forall (fun u => is_Some (role_by_id (user_roleId u) d)) (users d).

#[global] Instance healthy_dec (w : World) : Decision (healthy w).
Proof. unfold healthy. apply _. Defined.

#[global] Instance wf_store_dec (d : Store) : Decision (wf_store d).
Proof. unfold wf_store. apply _. Defined.

(** The rows of [User] with a given login. *)
Definition rows_with_login (l : string) (d : Store) : list User :=
  List.filter (fun u => bool_decide (user_login u = l)) (users d).

(** What [hasRole("admin")] decides from the row it loads. *)
Definition admin_verdict (rt : Runtime) (i : Z) (d : Store) : Reply :=
  match user_by_id i d with
  | Some u =>
      match role_by_id (user_roleId u) d with
      | Some r =>
          if bool_decide (role_name r = "admin") then Send 200 admin_text
          else Send 403 forbidden_text
      | None =>
          rejection rt
            (TypeError "Cannot read properties of null (reading 'name')")
      end
  | None => Send 403 forbidden_text
  end.

(** The row that a successful registration appends. *)
Definition registered_user {bcrypt : Bcrypt} (l p : string) (r : Role)
    (w : World) : User :=
  mkUser (next_id user_id (user_seq (db w)) (users (db w)))
         l (bcrypt_hash p (rng w)) (role_id r).

(** The effect of [Role.findOrCreate] on a store that answers. *)
Definition ensure_role (name : string) (d : Store) : Role * Store :=
  match role_by_name name d with
  | Some r => (r, d)
  | None =>
      let r := mkRole (next_id role_id (role_seq d) (roles d)) name in
      (r, mkStore (roles d ++ [r]) (users d) (role_id r) (user_seq d))
  end.

(** The default administrator the bootstrap creates on a store [d], for
    the role [r] and under a salt. *)
Definition default_admin {bcrypt : Bcrypt} (salt : nat) (r : Role)
    (d : Store) : User :=
  mkUser (next_id user_id (user_seq d) (users d))
         "admin" (bcrypt_hash "admin" salt) (role_id r).

(** The effect of the whole bootstrap on a store that answers. *)
Definition bootstrapped {bcrypt : Bcrypt} (salt : nat) (d : Store) : Store :=
  let d1 := snd (ensure_role "user" d) in
  let (adminRole, d2) := ensure_role "admin" d1 in
  match users d2 with
  | [] =>
      mkStore (roles d2) [default_admin salt adminRole d2] (role_seq d2)
              (user_id (default_admin salt adminRole d2))
  | _ :: _ => d2
  end.

(** The only write a request can make is the INSERT of POST /register. *)
Definition writes_at_most_a_user (d d' : Store) : Prop :=
  d' = d \/
  exists (l password : string) (rid : Z),
    d' = snd (insert_user (Some l) password rid d).

(** The bootstrap on an answering store establishes, and every request
    keeps, what the round trip of registration and login relies on. *)
Definition ready (d : Store) : Prop :=
  wf_store d /\ is_Some (role_by_name "user" d).

(** The requests the listening server handles, one after the other. A
    process that its runtime ends on an unanswered request handles none of
    the later ones: the states it goes through are those of a shorter
    sequence. *)
Fixpoint serve {bcrypt : Bcrypt} (reqs : list Request) (w : World) : World :=
  match reqs with
  | [] => w
  | req :: rest => serve rest (snd (app req w))
  end.

(** Every session the store holds carries a user. *)
Definition sessions_populated (w : World) : Prop :=
  forall (sid : SID) (s : SessionData),
    sessions w !! sid = Some s -> is_Some (user s).

(** What a handler can do to the session of its request and to the session
    store: leave both alone, destroy the session (logout), replace it by one
    with an identity (login), or reject without an answer (the role
    guard). *)
Definition session_effect (m : Method) (p : Path) (req : Req) (w : World)
    (res : Result (Reply * option SessionData)) (w' : World) : Prop :=
  (sessions w' = sessions w /\
   exists r : Reply, res = Ok (r, Some (session req))) \/
  (m = GET /\ p = path_logout /\
   sessions w' = delete (sessionID req) (sessions w) /\
   res = Ok (Redirect "/", None)) \/
  (m = POST /\ p = path_login /\
   sessions w' = sessions w /\
   exists ident : Identity,
     res = Ok (Redirect "/profile", Some (mkSession (Some ident)))) \/
  (m = GET /\ p = path_admin /\
   sessions w' = sessions w /\
   exists e : JsError, res = Throw e).


(** A computation that, started on a store that will not fail, ends on one
    that will not. *)
Definition keeps_healthy {A : Type} (m : M A) : Prop :=
  forall w : World, healthy w -> healthy (snd (m w)).

(** The users whose role is the one with a given id. *)
Definition users_with_role (rid : Z) (d : Store) : list User :=
  List.filter (fun u => bool_decide (user_roleId u = rid)) (users d).


(** ** Worked instances *)

(** A stand-in for bcrypt to run the model on: it keeps the format and the
    soundness of the real one, and nothing else. *)
Definition test_hash (p : string) (salt : nat) : string := "$2b$10$" ++ p.

Definition test_compare (p h : string) : bool :=
  bool_decide (h = "$2b$10$" ++ p).

Definition test_bcrypt : Bcrypt :=
  {| bcrypt_hash := test_hash; bcrypt_compare := test_compare |}.

(** An empty database and a new process: no row, no session, a store that
    will answer, so that the [sync] of the bootstrap succeeds. *)
Definition first_start : World :=
  mkWorld (mkStore [] [] 0 0) ∅ 0%nat 0%nat [] [] Express5 message.

(** The world once the bootstrap has run on it. *)
Definition started : World := startup (bcrypt := test_bcrypt) first_start.

Definition bob : Body := mkBody (Some "bob") (Some "secret").

Definition no_form : Body := mkBody None None.

(** The world after bob has registered and logged in; his token is the
    first session id. *)
Definition bob_logged_in : World :=
  snd (app (bcrypt := test_bcrypt) (mkRequest POST path_login None bob)
         (snd (app (bcrypt := test_bcrypt)
                 (mkRequest POST path_register None bob) started))).

Definition bob_token : option SID := Some 1%nat.

Definition bob_identity : Identity := mkIdentity 2 "bob" "user".

(** The same world after the administrator has deleted bob's row. *)
Definition bob_deleted : Store :=
  mkStore (roles (db started)) (users (db started)) 2 2.

Definition store_down : string :=
  "SQLITE_CANTOPEN: unable to open database file".

(** A process whose bootstrap was interrupted right after [sync]: the
    tables exist and are empty. *)
Definition interrupted : World :=
  startup (bcrypt := test_bcrypt)
    (with_faults [None; Some store_down] first_start).

Definition bob_registers : Request := mkRequest POST path_register None bob.

Definition bob_logs_in : Request := mkRequest POST path_login None bob.

(** A store whose only user refers to a role that is not there. *)
Definition orphaned : Store :=
  mkStore [] [mkUser 2 "bob" "$2b$10$secret" 1] 2 2.

(** * Properties *)

Section Properties.

Context {bcrypt : Bcrypt}.

(** What is assumed of bcrypt: a password verifies against its own hash,
    and a hash at cost 10 is written in the modular crypt format. *)
Hypothesis bcrypt_sound :
  forall (p : string) (salt : nat), bcrypt_compare p (bcrypt_hash p salt) = true.

Hypothesis bcrypt_format :
  forall (p : string) (salt : nat),
    exists rest : string, bcrypt_hash p salt = "$2b$10$" ++ rest.

(** ** Lemmas on tables *)

Lemma find_snoc {A : Type} (f : A -> bool) (l : list A) (x : A) :
  find f (l ++ [x]) =
  match find f l with
  | Some y => Some y
  | None => if f x then Some x else None
  end.
Proof.
  induction l as [|a l IH]; simpl.
  - reflexivity.
  - destruct (f a); [reflexivity | exact IH].
Qed.

Lemma max_id_bound {A : Type} (key : A -> Z) (rows : list A) (r : A) :
  In r rows -> (key r <= max_id key rows)%Z.
Proof.
  induction rows as [|a rows IH]; simpl; intros Hin.
  - contradiction.
  - destruct Hin as [-> | Hin]; [lia | specialize (IH Hin); lia].
Qed.

Lemma next_id_fresh {A : Type} (key : A -> Z) (seq : Z) (rows : list A) :
  ~ In (next_id key seq rows) (map key rows).
Proof.
  intros Hin. apply in_map_iff in Hin as (r & Heq & Hin).
  apply (max_id_bound key) in Hin. unfold next_id in Heq. lia.
Qed.

Lemma NoDup_snoc {A : Type} (l : list A) (x : A) :
  NoDup l -> ~ In x l -> NoDup (l ++ [x]).
Proof.
  intros Hl Hx. apply NoDup_app. split; [exact Hl | split].
  - intros y Hy Hyx. apply list_elem_of_In in Hy.
    apply list_elem_of_singleton in Hyx. subst y. contradiction.
  - apply NoDup_singleton.
Qed.

Lemma find_key_absent {A K : Type} `{EqDecision K} (key : A -> K) (k : K)
    (rows : list A) :
  find (fun r => bool_decide (key r = k)) rows = None ->
  ~ In k (map key rows).
Proof.
  intros Hnone Hin. apply in_map_iff in Hin as (r & Heq & Hin).
  pose proof (find_none _ _ Hnone r Hin) as Hf. simpl in Hf.
  apply bool_decide_eq_false in Hf. contradiction.
Qed.

Lemma find_key_present {A K : Type} `{EqDecision K} (key : A -> K) (k : K)
    (rows : list A) (r : A) :
  find (fun r => bool_decide (key r = k)) rows = Some r ->
  In r rows /\ key r = k.
Proof.
  intros Hf. apply find_some in Hf as [Hin Hk].
  apply bool_decide_eq_true in Hk. split; assumption.
Qed.

(** With a unique key, looking a row up by its own key finds that row. *)
Lemma find_unique_key {A K : Type} `{EqDecision K} (key : A -> K)
    (rows : list A) (r : A) :
  NoDup (map key rows) -> In r rows ->
  find (fun x => bool_decide (key x = key r)) rows = Some r.
Proof.
  induction rows as [|a rows IH]; simpl; intros Hnd Hin.
  - contradiction.
  - apply NoDup_cons in Hnd as [Ha Hnd].
    destruct (bool_decide (key a = key r)) eqn:Hk.
    + apply bool_decide_eq_true in Hk.
      destruct Hin as [-> | Hin]; [reflexivity |].
      exfalso. apply Ha. rewrite Hk. apply list_elem_of_In.
      apply in_map. exact Hin.
    + apply bool_decide_eq_false in Hk.
      destruct Hin as [-> | Hin]; [contradiction |].
      apply IH; assumption.
Qed.

Lemma filter_key_absent {A K : Type} `{EqDecision K} (key : A -> K) (k : K)
    (rows : list A) :
  ~ In k (map key rows) ->
  List.filter (fun x => bool_decide (key x = k)) rows = [].
Proof.
  induction rows as [|a rows IH]; simpl; intros Hk.
  - reflexivity.
  - rewrite bool_decide_eq_false_2 by (intros Heq; apply Hk; left; exact Heq).
    apply IH. intros Hin. apply Hk. right. exact Hin.
Qed.

(** With a unique key, exactly one row carries a key that is present. *)
Lemma unique_key_one_row {A K : Type} `{EqDecision K} (key : A -> K) (k : K)
    (rows : list A) (r : A) :
  NoDup (map key rows) ->
  find (fun x => bool_decide (key x = k)) rows = Some r ->
  List.filter (fun x => bool_decide (key x = k)) rows = [r].
Proof.
  induction rows as [|a rows IH]; simpl; intros Hnd Hf.
  - discriminate.
  - apply NoDup_cons in Hnd as [Ha Hnd].
    destruct (bool_decide (key a = k)) eqn:Hk.
    + injection Hf as ->. f_equal.
      apply bool_decide_eq_true in Hk. subst k.
      apply filter_key_absent. intros Hin. apply Ha.
      apply list_elem_of_In. exact Hin.
    + apply IH; assumption.
Qed.

(** ** Lemmas on the world *)

Lemma query_answers {A : Type} (f : Store -> Result A * Store) (w : World) :
  next_fault w = None ->
  query f w =
  (fst (f (db w)), with_db (snd (f (db w))) (with_faults (tail (faults w)) w)).
Proof.
  destruct w as [d s n r fs c rt ins]. unfold next_fault, query. simpl.
  destruct fs as [|[m|] rest]; intros Hf; try discriminate;
    destruct (f d); reflexivity.
Qed.

Lemma query_fails {A : Type} (f : Store -> Result A * Store) (w : World)
    (msg : string) (rest : list (option string)) :
  faults w = Some msg :: rest ->
  query f w = (Throw (ConnectionError msg), with_faults rest w).
Proof. unfold query. intros ->. reflexivity. Qed.

Lemma healthy_next_fault (w : World) : healthy w -> next_fault w = None.
Proof.
  unfold healthy, next_fault. destruct (faults w) as [|f rest]; intros H.
  - reflexivity.
  - apply Forall_cons in H as [H _]. exact H.
Qed.

Lemma healthy_tail (w w' : World) :
  healthy w -> faults w' = tail (faults w) -> healthy w'.
Proof.
  unfold healthy. intros H ->. destruct (faults w) as [|f rest]; simpl.
  - constructor.
  - apply Forall_cons in H as [_ H]. exact H.
Qed.

(** The two ways a request starts: with the session its cookie names, or
    with a fresh one. *)
Lemma load_session_cases (c : option SID) (w : World) :
  (exists sid s,
      c = Some sid /\ sessions w !! sid = Some s /\
      current_user c w = user s /\
      load_session c w = (sid, s, false, w)) \/
  (current_user c w = None /\
   (forall sid : SID, c = Some sid -> sessions w !! sid = None) /\
   load_session c w =
   (next_sid w, mkSession None, true, with_next_sid (S (next_sid w)) w)).
Proof.
  unfold load_session, current_user. destruct c as [sid|].
  - destruct (sessions w !! sid) as [s|] eqn:Hs.
    + left. exists sid, s. repeat split; assumption.
    + right. split; [reflexivity |]. split; [| reflexivity].
      intros sid' [= <-]. exact Hs.
  - right. split; [reflexivity |]. split; [| reflexivity].
    intros sid' [=].
Qed.

(** An unchanged session is not written back. *)
Lemma end_response_unchanged (sid : SID) (is_new : bool) (s : SessionData)
    (w : World) :
  end_response sid is_new s (Some s) w = (None, w).
Proof. unfold end_response. rewrite decide_True by reflexivity. reflexivity. Qed.

Ltac start_request req w :=
  let sid := fresh "sid" in
  let s := fresh "s" in
  let Hc := fresh "Hcookie" in
  let Hs := fresh "Hstored" in
  let Hu := fresh "Huser" in
  let Hl := fresh "Hload" in
  unfold app;
  destruct (load_session_cases (cookie req) w)
    as [(sid & s & Hc & Hs & Hu & Hl) | (Hu & Hs & Hl)];
  rewrite Hl; clear Hl; cbn [cookie method path form] in *.

(** ** The guards *)

(** GET /profile, whatever the request carries. *)
Lemma app_profile (c : option SID) (b : Body) (w : World) :
  exists w1 : World,
    app (mkRequest GET path_profile c b) w
    = (mkResponse
         match current_user c w with
         | Some ident => Send 200 (greeting (login ident))
         | None => Redirect "/login"
         end None, w1) /\
    db w1 = db w /\ sessions w1 = sessions w /\ faults w1 = faults w.
Proof.
  start_request (mkRequest GET path_profile c b) w;
    cbn -[end_response]; unfold get_profile, isAuthenticated, profile_page;
    cbn -[end_response]; rewrite Huser.
  - exists w. destruct (user s); unfold ret; cbn -[end_response];
      rewrite end_response_unchanged; repeat split; reflexivity.
  - eexists. unfold ret. cbn. repeat split; reflexivity.
Qed.

(** GET /admin for a request that carries a session, when the store
    answers. *)
Lemma app_admin_answered (c : option SID) (b : Body) (w : World)
    (ident : Identity) :
  current_user c w = Some ident ->
  next_fault w = None ->
  exists w1 : World,
    app (mkRequest GET path_admin c b) w
    = (mkResponse (admin_verdict (runtime w) (id ident) (db w)) None, w1) /\
    db w1 = db w /\ sessions w1 = sessions w /\
    faults w1 = tail (faults w).
Proof.
  intros Hsome Hfault.
  start_request (mkRequest GET path_admin c b) w; [| congruence].
  rewrite Hsome in Huser. symmetry in Huser.
  cbn -[end_response]. unfold get_admin, isAuthenticated, hasRole.
  cbn -[end_response]. rewrite Huser. unfold bind, User_findByPk.
  rewrite (query_answers _ w Hfault). cbn -[end_response].
  unfold admin_verdict.
  destruct (user_by_id (id ident) (db w)) as [u|]; cbn -[end_response].
  - unfold Role_name, include_Role. cbn -[end_response].
    destruct (role_by_id (user_roleId u) (db w)) as [r|]; cbn -[end_response].
    + destruct (bool_decide (role_name r = "admin")); cbn -[end_response];
        rewrite end_response_unchanged; eexists; repeat split; reflexivity.
    + eexists; repeat split; reflexivity.
  - rewrite end_response_unchanged. eexists; repeat split; reflexivity.
Qed.

(** Concatenation of strings is associative. *)
Lemma append_assoc (a b c : string) : (a ++ b) ++ c = a ++ b ++ c.
Proof.
  induction a as [|x a IH]; [reflexivity |].
  change (String x ((a ++ b) ++ c) = String x (a ++ b ++ c)).
  rewrite IH. reflexivity.
Qed.

(** The page of GET /profile, cut before the link. *)
Lemma greeting_parts (l : string) :
  greeting l
  = ("Добро пожаловать, " ++ l ++ "! ")
      ++ "<a href="
      ++ String "034"%char ("/logout" ++ String "034"%char ">Выйти</a>")
      ++ "".
Proof.
  unfold greeting. rewrite !append_assoc. reflexivity.
Qed.

(** C6. Authentication guard on GET /profile: a request that carries no
    session is redirected to /login, with no body and no change to the
    session store; a request that carries a session is answered 200 with
    the page of the handler, spelled out here character for character (the
    character of code 34 is the double quote): it contains the session's
    login, and it contains a link to /logout. *)
Theorem profile_requires_session (c : option SID) (b : Body) (w : World) :
  (current_user c w = None ->
   fst (app (mkRequest GET path_profile c b) w)
   = mkResponse (Redirect "/login") None /\
   sessions (snd (app (mkRequest GET path_profile c b) w)) = sessions w) /\
  (forall ident : Identity,
      current_user c w = Some ident ->
      fst (app (mkRequest GET path_profile c b) w)
      = mkResponse
          (Send 200
             ("Добро пожаловать, " ++ login ident ++ "! <a href="
                ++ String "034"%char
                     ("/logout" ++ String "034"%char ">Выйти</a>")))
          None /\
      status_of (reply (fst (app (mkRequest GET path_profile c b) w)))
      = Some 200 /\
      (exists before after : string,
          reply (fst (app (mkRequest GET path_profile c b) w))
          = Send 200 (before ++ login ident ++ after)) /\
      (exists before after : string,
          reply (fst (app (mkRequest GET path_profile c b) w))
          = Send 200
              (before
                 ++ "<a href="
                 ++ String "034"%char
                      ("/logout" ++ String "034"%char ">Выйти</a>")
                 ++ after))).
Proof.
  destruct (app_profile c b w) as (w1 & Happ & _ & Hsess & _).
  rewrite Happ. cbn [fst snd]. split.
  - intros ->. split; [reflexivity | exact Hsess].
  - intros ident ->. cbn [reply status_of].
    split; [reflexivity |]. split; [reflexivity |]. split.
    + exists "Добро пожаловать, ", ("! " ++ logout_link). reflexivity.
    + exists ("Добро пожаловать, " ++ login ident ++ "! "), "".
      rewrite greeting_parts. reflexivity.
Qed.

(** C10. GET /profile trusts the session snapshot: for a request that
    carries a session the answer is 200 with the page that greets the
    snapshot's login, spelled out here character for character, whatever
    the store holds at that moment ([d]) and whether or not it would answer
    ([f]); no interaction with the store takes place. GET /admin with the
    same session asks the store: when the user's row is gone, or its role
    is not the one named admin, it is refused. *)
Theorem profile_trusts_snapshot (c : option SID) (b : Body) (w : World)
    (ident : Identity) (d : Store) (f : list (option string)) :
  current_user c w = Some ident ->
  fst (app (mkRequest GET path_profile c b) (with_db d (with_faults f w)))
  = mkResponse
      (Send 200
         ("Добро пожаловать, " ++ login ident ++ "! <a href="
            ++ String "034"%char
                 ("/logout" ++ String "034"%char ">Выйти</a>")))
      None /\
  (exists before after : string,
      reply (fst (app (mkRequest GET path_profile c b)
                      (with_db d (with_faults f w))))
      = Send 200 (before ++ login ident ++ after)) /\
  db (snd (app (mkRequest GET path_profile c b) (with_db d (with_faults f w))))
  = d /\
  faults (snd (app (mkRequest GET path_profile c b)
                   (with_db d (with_faults f w))))
  = f /\
  (user_by_id (id ident) d = None ->
   next_fault (with_faults f w) = None ->
   reply (fst (app (mkRequest GET path_admin c b)
                   (with_db d (with_faults f w))))
   = Send 403 forbidden_text) /\
  (forall (u : User) (r : Role),
      user_by_id (id ident) d = Some u ->
      role_by_id (user_roleId u) d = Some r ->
      role_name r <> "admin" ->
      next_fault (with_faults f w) = None ->
      reply (fst (app (mkRequest GET path_admin c b)
                      (with_db d (with_faults f w))))
      = Send 403 forbidden_text).
Proof.
  intros Hsome.
  assert (Hsome' : current_user c (with_db d (with_faults f w)) = Some ident)
    by exact Hsome.
  destruct (app_profile c b (with_db d (with_faults f w)))
    as (w1 & Happ & Hdb & _ & Hfaults).
  rewrite Happ, Hsome'. cbn [fst snd reply].
  split; [reflexivity |]. split.
  { exists "Добро пожаловать, ", ("! " ++ logout_link). reflexivity. }
  split; [exact Hdb |]. split; [exact Hfaults |]. split.
  - intros Hgone Hfault.
    destruct (app_admin_answered c b _ ident Hsome' Hfault) as (w2 & Hadm & _).
    rewrite Hadm. cbn [fst reply]. unfold admin_verdict.
    cbn [db with_db]. rewrite Hgone. reflexivity.
  - intros u r Hu Hr Hname Hfault.
    destruct (app_admin_answered c b _ ident Hsome' Hfault) as (w2 & Hadm & _).
    rewrite Hadm. cbn [fst reply]. unfold admin_verdict.
    cbn [db with_db]. rewrite Hu, Hr.
    rewrite bool_decide_eq_false_2 by exact Hname. reflexivity.
Qed.

(** C2. Role guard on GET /admin: a request with no session is redirected
    to /login. For a request that carries a session, the guard loads the
    user with its role from the store by the session's id (one interaction
    with the store, which is assumed to answer): a row whose role is named
    admin gives 200; a row with another role, or no row, gives 403 with a
    plain text and no redirect. On a store that satisfies the schema's
    constraints these are the only two answers. *)
Theorem admin_requires_role (c : option SID) (b : Body) (w : World) :
  (current_user c w = None ->
   reply (fst (app (mkRequest GET path_admin c b) w)) = Redirect "/login") /\
  (forall ident : Identity,
      current_user c w = Some ident ->
      next_fault w = None ->
      (forall (u : User) (r : Role),
          user_by_id (id ident) (db w) = Some u ->
          role_by_id (user_roleId u) (db w) = Some r ->
          role_name r = "admin" ->
          reply (fst (app (mkRequest GET path_admin c b) w))
          = Send 200 admin_text) /\
      (forall (u : User) (r : Role),
          user_by_id (id ident) (db w) = Some u ->
          role_by_id (user_roleId u) (db w) = Some r ->
          role_name r <> "admin" ->
          reply (fst (app (mkRequest GET path_admin c b) w))
          = Send 403 forbidden_text) /\
      (user_by_id (id ident) (db w) = None ->
       reply (fst (app (mkRequest GET path_admin c b) w))
       = Send 403 forbidden_text) /\
      is_redirect (Send 403 forbidden_text) = false /\
      faults (snd (app (mkRequest GET path_admin c b) w)) = tail (faults w) /\
      (wf_store (db w) ->
       reply (fst (app (mkRequest GET path_admin c b) w)) = Send 200 admin_text \/
       reply (fst (app (mkRequest GET path_admin c b) w))
       = Send 403 forbidden_text)).
Proof.
  split.
  - intros Hnone.
    start_request (mkRequest GET path_admin c b) w;
      cbn -[end_response]; unfold get_admin, isAuthenticated;
      cbn -[end_response].
    + rewrite <- Huser, Hnone. unfold ret. cbn -[end_response].
      rewrite end_response_unchanged. reflexivity.
    + reflexivity.
  - intros ident Hsome Hfault.
    destruct (app_admin_answered c b w ident Hsome Hfault)
      as (w1 & Happ & _ & _ & Hfaults).
    rewrite Happ. cbn [fst snd reply]. unfold admin_verdict.
    repeat split.
    + intros u r -> -> Hname.
      rewrite bool_decide_eq_true_2 by exact Hname. reflexivity.
    + intros u r -> -> Hname.
      rewrite bool_decide_eq_false_2 by exact Hname. reflexivity.
    + intros ->. reflexivity.
    + exact Hfaults.
    + intros (_ & _ & _ & _ & Hfk).
      destruct (user_by_id (id ident) (db w)) as [u|] eqn:Hu;
        [| right; reflexivity].
      apply find_key_present in Hu as [Hin _].
      rewrite Forall_forall in Hfk.
      destruct (Hfk u (proj2 (list_elem_of_In _ _) Hin)) as [r ->].
      destruct (bool_decide (role_name r = "admin")); [left | right];
        reflexivity.
Qed.

(** ** Login *)

(** POST /login refused: the store answers and either has no row for the
    login or the password does not verify. *)
Lemma post_login_rejected (sid : SID) (s : SessionData) (w : World)
    (l p : string) :
  let req := mkReq (mkBody (Some l) (Some p)) sid s in
  next_fault w = None ->
  (user_by_login l (db w) = None \/
   exists u : User,
     user_by_login l (db w) = Some u /\
     bcrypt_compare p (user_password u) = false) ->
  post_login req w
  = (Ok (Send 401 login_failed_text, Some (session req)),
     with_faults (tail (faults w)) w).
Proof.
  intros req Hfault Hcase. subst req.
  unfold post_login, try_catch, bind. cbn [req_body body_login body_password].
  unfold User_findOne. rewrite (query_answers _ w Hfault). cbn [fst snd].
  destruct Hcase as [Hnone | (u & Hsome & Hcmp)].
  - rewrite Hnone. reflexivity.
  - rewrite Hsome. cbn. rewrite Hcmp. reflexivity.
Qed.

(** POST /login accepted: the store answers with a row whose password
    verifies and whose role the join finds. *)
Lemma post_login_accepted (sid : SID) (s : SessionData) (w : World)
    (l p : string) (u : User) (r : Role) :
  let req := mkReq (mkBody (Some l) (Some p)) sid s in
  next_fault w = None ->
  user_by_login l (db w) = Some u ->
  bcrypt_compare p (user_password u) = true ->
  role_by_id (user_roleId u) (db w) = Some r ->
  post_login req w
  = (Ok (Redirect "/profile",
         Some (mkSession
                 (Some (mkIdentity (user_id u) (user_login u) (role_name r))))),
     with_faults (tail (faults w)) w).
Proof.
  intros req Hfault Hsome Hcmp Hrole. subst req.
  unfold post_login, try_catch, bind. cbn [req_body body_login body_password].
  unfold User_findOne. rewrite (query_answers _ w Hfault). cbn [fst snd].
  rewrite Hsome. cbn. rewrite Hcmp. unfold Role_name. cbn. rewrite Hrole.
  reflexivity.
Qed.

(** C3. Failed login: when the store answers and either holds no user with
    the given login or the given password does not verify against the
    stored hash, POST /login answers 401 with one fixed text, the same in
    both cases; it sets no cookie and leaves the session store as it was. *)
Theorem failed_login_is_401 (c : option SID) (l p : string) (w : World) :
  next_fault w = None ->
  (user_by_login l (db w) = None \/
   exists u : User,
     user_by_login l (db w) = Some u /\
     bcrypt_compare p (user_password u) = false) ->
  fst (app (mkRequest POST path_login c (mkBody (Some l) (Some p))) w)
  = mkResponse (Send 401 login_failed_text) None /\
  sessions (snd (app (mkRequest POST path_login c (mkBody (Some l) (Some p))) w))
  = sessions w.
Proof.
  intros Hfault Hcase.
  start_request (mkRequest POST path_login c (mkBody (Some l) (Some p))) w;
    cbn [router].
  - rewrite (post_login_rejected sid s w l p Hfault Hcase).
    cbn [session]. rewrite end_response_unchanged. split; reflexivity.
  - rewrite (post_login_rejected (next_sid w) (mkSession None)
               (with_next_sid (S (next_sid w)) w) l p Hfault Hcase).
    cbn [session]. rewrite end_response_unchanged. split; reflexivity.
Qed.

(** A successful login leaves the client with a token for the new
    identity. *)
Lemma app_login_accepted (c : option SID) (l p : string) (w : World)
    (u : User) (r : Role) :
  next_fault w = None ->
  user_by_login l (db w) = Some u ->
  bcrypt_compare p (user_password u) = true ->
  role_by_id (user_roleId u) (db w) = Some r ->
  let req := mkRequest POST path_login c (mkBody (Some l) (Some p)) in
  reply (fst (app req w)) = Redirect "/profile" /\
  current_user (client_token req (fst (app req w))) (snd (app req w))
  = Some (mkIdentity (user_id u) (user_login u) (role_name r)) /\
  db (snd (app req w)) = db w.
Proof.
  intros Hfault Hsome Hcmp Hrole req. subst req.
  start_request (mkRequest POST path_login c (mkBody (Some l) (Some p))) w;
    cbn [router].
  - rewrite (post_login_accepted sid s w l p u r Hfault Hsome Hcmp Hrole).
    unfold end_response.
    destruct (decide _) as [Heq | Hne]; cbn; unfold client_token;
      cbn; rewrite Hcookie; unfold current_user; cbn.
    + rewrite Hstored, <- Heq. repeat split; reflexivity.
    + rewrite lookup_insert_eq. repeat split; reflexivity.
  - rewrite (post_login_accepted (next_sid w) (mkSession None)
               (with_next_sid (S (next_sid w)) w) l p u r
               Hfault Hsome Hcmp Hrole).
    unfold end_response. rewrite decide_False by discriminate.
    cbn. unfold client_token, current_user. cbn.
    rewrite lookup_insert_eq. repeat split; reflexivity.
Qed.

(** ** Registration *)

Lemma query_cases {A : Type} (f : Store -> Result A * Store) (w : World) :
  (exists (msg : string) (rest : list (option string)),
      faults w = Some msg :: rest /\
      query f w = (Throw (ConnectionError msg), with_faults rest w)) \/
  (next_fault w = None /\
   query f w =
   (fst (f (db w)), with_db (snd (f (db w))) (with_faults (tail (faults w)) w))).
Proof.
  destruct (faults w) as [|[msg|] rest] eqn:Hf.
  - right. assert (Hn : next_fault w = None) by (unfold next_fault; now rewrite Hf).
    split; [exact Hn |]. rewrite (query_answers f w Hn), Hf. reflexivity.
  - left. exists msg, rest. split; [reflexivity |]. now apply query_fails.
  - right. assert (Hn : next_fault w = None) by (unfold next_fault; now rewrite Hf).
    split; [exact Hn |]. rewrite (query_answers f w Hn), Hf. reflexivity.
Qed.

Lemma find_key_exists {A K : Type} `{EqDecision K} (key : A -> K)
    (rows : list A) (r : A) :
  In r rows -> is_Some (find (fun x => bool_decide (key x = key r)) rows).
Proof.
  intros Hin.
  destruct (find (fun x => bool_decide (key x = key r)) rows) eqn:Hf.
  - eexists. reflexivity.
  - pose proof (find_none _ _ Hf r Hin) as Hr. simpl in Hr.
    apply bool_decide_eq_false in Hr. contradiction.
Qed.

(** POST /register on a store that answers, has the role and does not have
    the login. *)
Lemma post_register_created (sid : SID) (s : SessionData) (w : World)
    (l p : string) (r : Role) :
  healthy w ->
  role_by_name "user" (db w) = Some r ->
  user_by_login l (db w) = None ->
  exists w1 : World,
    post_register (mkReq (mkBody (Some l) (Some p)) sid s) w
    = (Ok (Redirect "/login", Some s), w1) /\
    db w1 = mkStore (roles (db w))
                    (users (db w) ++ [registered_user l p r w])
                    (role_seq (db w))
                    (user_id (registered_user l p r w)) /\
    sessions w1 = sessions w /\
    next_sid w1 = next_sid w /\
    healthy w1.
Proof.
  intros Hh Hrole Hfree.
  assert (Hrid : is_Some (role_by_id (role_id r) (db w))).
  { apply find_key_present in Hrole as [Hin _].
    apply (find_key_exists role_id). exact Hin. }
  destruct Hrid as [r' Hrid].
  unfold post_register, bind, try_catch, Role_findOne.
  cbn [req_body body_login body_password session].
  rewrite (query_answers _ w (healthy_next_fault w Hh)). cbn [fst snd].
  rewrite Hrole. unfold bcrypt_hash_async, User_create.
  rewrite query_answers.
  2:{ apply healthy_next_fault, (healthy_tail w); [exact Hh | reflexivity]. }
  unfold insert_user. cbn [db with_db with_rng with_faults].
  rewrite Hfree, Hrid. cbn [fst snd]. unfold ret.
  eexists. split; [reflexivity |]. cbn.
  repeat split.
  apply (healthy_tail (with_faults (tail (faults w)) w)).
  - apply (healthy_tail w); [exact Hh | reflexivity].
  - reflexivity.
Qed.

(** POST /register for a login the store already has: every path through
    the handler ends in a 400 and none writes to the store. *)
Lemma post_register_taken (sid : SID) (s : SessionData) (w : World)
    (l : string) (pw : option string) :
  is_Some (user_by_login l (db w)) ->
  exists (text : string) (w1 : World),
    post_register (mkReq (mkBody (Some l) pw) sid s) w
    = (Ok (Send 400 text, Some s), w1) /\
    db w1 = db w /\ sessions w1 = sessions w.
Proof.
  intros [u Hu].
  unfold post_register, bind, try_catch, Role_findOne.
  cbn [req_body body_login body_password session].
  destruct (query_cases (fun d => (Ok (role_by_name "user" d), d)) w)
    as [(msg & rest & _ & ->) | [_ ->]]; cbn [fst snd].
  - do 2 eexists. split; [reflexivity |]. split; reflexivity.
  - destruct (role_by_name "user" (db w)) as [r|].
    2:{ do 2 eexists. split; [reflexivity |]. split; reflexivity. }
    destruct pw as [p|]; unfold bcrypt_hash_async.
    2:{ do 2 eexists. split; [reflexivity |]. split; reflexivity. }
    unfold User_create.
    match goal with
    | |- context [query ?f ?w0] =>
        destruct (query_cases f w0) as [(msg & rest & _ & ->) | [_ ->]]
    end.
    + do 2 eexists. split; [reflexivity |]. split; reflexivity.
    + unfold insert_user. cbn [db with_db with_rng with_faults].
      rewrite Hu. cbn [fst snd].
      do 2 eexists. split; [reflexivity |]. split; reflexivity.
Qed.

(** POST /register for a login the store already has, when the store
    answers, has the role, and a password was sent: the INSERT fails on the
    unique login and the handler reports that error. *)
Lemma post_register_duplicate (sid : SID) (s : SessionData) (w : World)
    (l p : string) (r : Role) (u : User) :
  healthy w ->
  role_by_name "user" (db w) = Some r ->
  user_by_login l (db w) = Some u ->
  exists w1 : World,
    post_register (mkReq (mkBody (Some l) (Some p)) sid s) w
    = (Ok (Send 400 (register_error_prefix ++
                     message (UniqueConstraintError "Validation error")),
           Some s), w1) /\
    insert_user (Some l) (bcrypt_hash p (rng w)) (role_id r) (db w)
    = (Throw (UniqueConstraintError "Validation error"), db w).
Proof.
  intros Hh Hrole Hu.
  unfold post_register, bind, try_catch, Role_findOne.
  cbn [req_body body_login body_password session].
  rewrite (query_answers _ w (healthy_next_fault w Hh)). cbn [fst snd].
  rewrite Hrole. unfold bcrypt_hash_async, User_create.
  rewrite query_answers.
  2:{ apply healthy_next_fault, (healthy_tail w); [exact Hh | reflexivity]. }
  unfold insert_user. cbn [db with_db with_rng with_faults].
  rewrite Hu. cbn [fst snd]. eexists. split; reflexivity.
Qed.

Lemma app_register_created (c : option SID) (w : World) (l p : string)
    (r : Role) :
  healthy w ->
  role_by_name "user" (db w) = Some r ->
  user_by_login l (db w) = None ->
  exists w1 : World,
    app (mkRequest POST path_register c (mkBody (Some l) (Some p))) w
    = (mkResponse (Redirect "/login") None, w1) /\
    db w1 = mkStore (roles (db w))
                    (users (db w) ++ [registered_user l p r w])
                    (role_seq (db w))
                    (user_id (registered_user l p r w)) /\
    sessions w1 = sessions w /\
    healthy w1.
Proof.
  intros Hh Hrole Hfree.
  start_request (mkRequest POST path_register c (mkBody (Some l) (Some p))) w;
    cbn [router].
  - destruct (post_register_created sid s w l p r Hh Hrole Hfree)
      as (w1 & -> & Hdb & Hsess & _ & Hh1).
    rewrite end_response_unchanged. exists w1. repeat split; assumption.
  - destruct (post_register_created (next_sid w) (mkSession None)
                (with_next_sid (S (next_sid w)) w) l p r Hh Hrole Hfree)
      as (w1 & -> & Hdb & Hsess & _ & Hh1).
    rewrite end_response_unchanged. exists w1. repeat split; assumption.
Qed.

Lemma app_register_taken (c : option SID) (w : World) (l : string)
    (pw : option string) :
  is_Some (user_by_login l (db w)) ->
  exists (text : string) (w1 : World),
    app (mkRequest POST path_register c (mkBody (Some l) pw)) w
    = (mkResponse (Send 400 text) None, w1) /\
    db w1 = db w /\ sessions w1 = sessions w.
Proof.
  intros Hu.
  start_request (mkRequest POST path_register c (mkBody (Some l) pw)) w;
    cbn [router].
  - destruct (post_register_taken sid s w l pw Hu)
      as (text & w1 & -> & Hdb & Hsess).
    rewrite end_response_unchanged. exists text, w1. repeat split; assumption.
  - destruct (post_register_taken (next_sid w) (mkSession None)
                (with_next_sid (S (next_sid w)) w) l pw Hu)
      as (text & w1 & -> & Hdb & Hsess).
    rewrite end_response_unchanged. exists text, w1. repeat split; assumption.
Qed.

(** C1. Round trip register-then-login. On a store that answers, satisfies
    the schema's constraints and holds the role named user (as it does once
    the bootstrap has run): for a login the User table does not have,
    POST /register with a login and a password redirects to /login, and
    POST /login with the same two then redirects to /profile and leaves the
    client with the token of a session whose login is the one registered and
    whose role is user. *)
Theorem register_then_login (c1 c2 : option SID) (l p : string) (w : World) :
  healthy w ->
  wf_store (db w) ->
  is_Some (role_by_name "user" (db w)) ->
  user_by_login l (db w) = None ->
  let register := mkRequest POST path_register c1 (mkBody (Some l) (Some p)) in
  let log_in := mkRequest POST path_login c2 (mkBody (Some l) (Some p)) in
  let w1 := snd (app register w) in
  reply (fst (app register w)) = Redirect "/login" /\
  reply (fst (app log_in w1)) = Redirect "/profile" /\
  exists ident : Identity,
    current_user (client_token log_in (fst (app log_in w1)))
                 (snd (app log_in w1)) = Some ident /\
    login ident = l /\
    role ident = "user".
Proof.
  intros Hh Hwf [r Hrole] Hfree register log_in w1.
  subst register log_in w1.
  destruct (app_register_created c1 w l p r Hh Hrole Hfree)
    as (w1 & -> & Hdb & _ & Hh1).
  cbn [fst snd reply]. split; [reflexivity |].
  pose proof (find_key_present _ _ _ _ Hrole) as [Hin Hname].
  assert (Hu : user_by_login l (db w1) = Some (registered_user l p r w)).
  { rewrite Hdb. unfold user_by_login in *. cbn [users].
    rewrite find_snoc, Hfree. cbn [user_login registered_user].
    rewrite bool_decide_eq_true_2 by reflexivity. reflexivity. }
  assert (Hr : role_by_id (user_roleId (registered_user l p r w)) (db w1)
               = Some r).
  { rewrite Hdb. unfold role_by_id. cbn [roles user_roleId registered_user].
    apply (find_unique_key role_id); [apply Hwf | exact Hin]. }
  destruct (app_login_accepted c2 l p w1 _ r
              (healthy_next_fault w1 Hh1) Hu (bcrypt_sound p (rng w)) Hr)
    as (Hreply & Htoken & _).
  split; [exact Hreply |].
  eexists. split; [exact Htoken |]. cbn [login role]. split; [reflexivity |].
  exact Hname.
Qed.

(** C4. Duplicate registration is rejected. On a store that satisfies the
    schema's constraints, POST /register with a login the User table
    already has answers 400 and leaves the store exactly as it was, so that
    exactly one row carries that login afterwards. When the store answers,
    holds the role named user and a password was sent, the 400 is the
    caught unique-constraint error of the INSERT, rendered with its
    message. *)
Theorem duplicate_registration_rejected (c : option SID) (l : string)
    (pw : option string) (w : World) :
  wf_store (db w) ->
  is_Some (user_by_login l (db w)) ->
  let register := mkRequest POST path_register c (mkBody (Some l) pw) in
  status_of (reply (fst (app register w))) = Some 400 /\
  db (snd (app register w)) = db w /\
  List.length (rows_with_login l (db (snd (app register w)))) = 1%nat /\
  (forall (p : string) (r : Role),
      healthy w ->
      role_by_name "user" (db w) = Some r ->
      pw = Some p ->
      insert_user (Some l) (bcrypt_hash p (rng w)) (role_id r) (db w)
      = (Throw (UniqueConstraintError "Validation error"), db w) /\
      reply (fst (app register w))
      = Send 400 (register_error_prefix ++
                  message (UniqueConstraintError "Validation error"))).
Proof.
  intros Hwf Hu register. subst register.
  destruct (app_register_taken c w l pw Hu) as (text & w1 & Happ & Hdb & _).
  rewrite Happ. cbn [fst snd reply status_of].
  split; [reflexivity |]. split; [exact Hdb |]. split.
  - rewrite Hdb. destruct Hu as [u Hu]. unfold rows_with_login.
    unfold user_by_login in Hu.
    rewrite (unique_key_one_row user_login l (users (db w)) u);
      [reflexivity | apply Hwf | exact Hu].
  - intros p r Hh Hrole ->. destruct Hu as [u Hu].
    assert (Htext : reply (fst (app (mkRequest POST path_register c
                                        (mkBody (Some l) (Some p))) w))
                    = Send 400 (register_error_prefix ++
                         message (UniqueConstraintError "Validation error"))
                    /\ insert_user (Some l) (bcrypt_hash p (rng w))
                                   (role_id r) (db w)
                       = (Throw (UniqueConstraintError "Validation error"),
                          db w)).
    { clear Happ.
      start_request (mkRequest POST path_register c (mkBody (Some l) (Some p))) w;
        cbn [router].
      - destruct (post_register_duplicate sid s w l p r u Hh Hrole Hu)
          as (w2 & -> & Hins).
        rewrite end_response_unchanged. split; [reflexivity | exact Hins].
      - destruct (post_register_duplicate (next_sid w) (mkSession None)
                    (with_next_sid (S (next_sid w)) w) l p r u Hh Hrole Hu)
          as (w2 & -> & Hins).
        rewrite end_response_unchanged. split; [reflexivity | exact Hins]. }
    rewrite Happ in Htext. cbn [fst reply] in Htext.
    destruct Htext as [Ht Hins]. split; [exact Hins | exact Ht].
Qed.

(** ** Failures of the store *)

(** C7, as the code has it. A failed persistence-layer operation is
    answered by the handler it occurs in. POST /login answers 500 with the
    underlying error text after its prefix. POST /register answers 400 with
    the underlying error text after its prefix, for a failure of the store
    at the role lookup or at the INSERT as well as for a violation of the
    unique login. The role guard of GET /admin has no catch: the program
    writes no response and the outcome is the runtime's, the 500 error page
    of Express 5 or no answer under Express 4. *)
Theorem store_failure_responses (c : option SID) (l p : string)
    (pw : option string) (b : Body) (w : World) (msg : string)
    (rest : list (option string)) :
  (faults w = Some msg :: rest ->
   reply (fst (app (mkRequest POST path_login c (mkBody (Some l) pw)) w))
   = Send 500 ("Ошибка сервера: " ++ msg)) /\
  (faults w = Some msg :: rest ->
   reply (fst (app (mkRequest POST path_register c b) w))
   = Send 400 ("Ошибка регистрации: " ++ msg)) /\
  (forall r : Role,
      faults w = None :: Some msg :: rest ->
      role_by_name "user" (db w) = Some r ->
      reply (fst (app (mkRequest POST path_register c
                                 (mkBody (Some l) (Some p))) w))
      = Send 400 ("Ошибка регистрации: " ++ msg)) /\
  (forall (r : Role) (u : User),
      healthy w ->
      role_by_name "user" (db w) = Some r ->
      user_by_login l (db w) = Some u ->
      is_infrastructure (UniqueConstraintError "Validation error") = false /\
      reply (fst (app (mkRequest POST path_register c
                                 (mkBody (Some l) (Some p))) w))
      = Send 400 ("Ошибка регистрации: " ++
                  message (UniqueConstraintError "Validation error"))) /\
  (forall ident : Identity,
      current_user c w = Some ident ->
      faults w = Some msg :: rest ->
      reply (fst (app (mkRequest GET path_admin c b) w))
      = rejection (runtime w) (ConnectionError msg) /\
      (runtime w = Express5 ->
       status_of (reply (fst (app (mkRequest GET path_admin c b) w)))
       = Some 500) /\
      (runtime w = Express4 ->
       status_of (reply (fst (app (mkRequest GET path_admin c b) w)))
       = None)).
Proof.
  split; [| split; [| split; [| split]]].
  - intros Hf.
    start_request (mkRequest POST path_login c (mkBody (Some l) pw)) w;
      cbn [router]; unfold post_login, try_catch, bind, User_findOne;
      cbn [req_body body_login].
    + rewrite (query_fails _ w msg rest Hf). cbn -[end_response].
      rewrite end_response_unchanged. reflexivity.
    + rewrite (query_fails _ (with_next_sid (S (next_sid w)) w) msg rest Hf).
      reflexivity.
  - intros Hf.
    start_request (mkRequest POST path_register c b) w;
      cbn [router]; unfold post_register, try_catch, bind, Role_findOne.
    + rewrite (query_fails _ w msg rest Hf). cbn -[end_response].
      rewrite end_response_unchanged. reflexivity.
    + rewrite (query_fails _ (with_next_sid (S (next_sid w)) w) msg rest Hf).
      reflexivity.
  - intros r Hf Hrole.
    assert (Hn : next_fault w = None) by (unfold next_fault; now rewrite Hf).
    start_request (mkRequest POST path_register c (mkBody (Some l) (Some p))) w;
      cbn [router]; unfold post_register, try_catch, bind, Role_findOne;
      cbn [req_body session body_login body_password].
    + rewrite (query_answers _ w Hn). cbn [fst snd]. rewrite Hrole.
      unfold bcrypt_hash_async, User_create.
      erewrite query_fails by (cbn; rewrite Hf; reflexivity).
      cbn -[end_response]. rewrite end_response_unchanged. reflexivity.
    + rewrite (query_answers _ (with_next_sid (S (next_sid w)) w) Hn).
      cbn [fst snd db with_next_sid]. rewrite Hrole.
      unfold bcrypt_hash_async, User_create.
      erewrite query_fails by (cbn; rewrite Hf; reflexivity).
      reflexivity.
  - intros r u Hh Hrole Hu. split; [reflexivity |].
    start_request (mkRequest POST path_register c (mkBody (Some l) (Some p))) w;
      cbn [router].
    + destruct (post_register_duplicate sid s w l p r u Hh Hrole Hu)
        as (w2 & -> & _).
      rewrite end_response_unchanged. reflexivity.
    + destruct (post_register_duplicate (next_sid w) (mkSession None)
                  (with_next_sid (S (next_sid w)) w) l p r u Hh Hrole Hu)
        as (w2 & -> & _).
      rewrite end_response_unchanged. reflexivity.
  - intros ident Hsome Hf.
    assert (Hreply : reply (fst (app (mkRequest GET path_admin c b) w))
                     = rejection (runtime w) (ConnectionError msg)).
    { start_request (mkRequest GET path_admin c b) w; [| congruence].
      rewrite Hsome in Huser. symmetry in Huser.
      cbn [router]. unfold get_admin, isAuthenticated, hasRole.
      cbn [session]. rewrite Huser. unfold bind, User_findByPk.
      rewrite (query_fails _ w msg rest Hf). reflexivity. }
    rewrite Hreply. split; [reflexivity |].
    split; intros ->; reflexivity.
Qed.

(** ** Logout *)

(** C9. Logout: GET /logout removes the current session from the store and
    redirects to /. The redirect does not depend on the store: over any
    session store, whether its destroy reports an error or not, the handler
    answers with the redirect to /, and an error is only written to the
    console. Afterwards GET /profile with the token the client still holds
    redirects to /login. *)
Theorem logout_destroys_session (c : option SID) (b b' : Body) (w : World) :
  fst (app (mkRequest GET path_logout c b) w) = mkResponse (Redirect "/") None /\
  match c with
  | Some sid => sessions (snd (app (mkRequest GET path_logout c b) w)) !! sid = None
  | None => True
  end /\
  current_user c (snd (app (mkRequest GET path_logout c b) w)) = None /\
  (forall (store_destroy : SID -> M (option string)) (req : Req)
          (err : option string) (w0 w1 : World),
      store_destroy (sessionID req) w0 = (Ok err, w1) ->
      fst (Session_destroy_on store_destroy req logout_callback w0)
      = Ok (Redirect "/", None) /\
      db (snd (Session_destroy_on store_destroy req logout_callback w0))
      = db w1 /\
      console (snd (Session_destroy_on store_destroy req logout_callback w0))
      = (console w1 ++ match err with
                       | Some e => [("Ошибка при выходе: " ++ e)%string]
                       | None => []
                       end)%list) /\
  fst (app (mkRequest GET path_profile c b')
           (snd (app (mkRequest GET path_logout c b) w)))
  = mkResponse (Redirect "/login") None.
Proof.
  assert (Hgone : current_user c (snd (app (mkRequest GET path_logout c b) w))
                  = None /\
                  fst (app (mkRequest GET path_logout c b) w)
                  = mkResponse (Redirect "/") None /\
                  match c with
                  | Some sid =>
                      sessions (snd (app (mkRequest GET path_logout c b) w))
                        !! sid = None
                  | None => True
                  end).
  { start_request (mkRequest GET path_logout c b) w; cbn.
    - subst c. unfold current_user. cbn. rewrite lookup_delete_eq.
      repeat split; reflexivity.
    - destruct c as [sid|]; [| repeat split; reflexivity].
      unfold current_user. cbn.
      assert (Hd : delete (next_sid w) (sessions w) !! sid = None).
      { apply lookup_delete_None. right. apply Hstored. reflexivity. }
      rewrite Hd. repeat split; reflexivity. }
  destruct Hgone as (Huser & Hreply & Hstore).
  split; [exact Hreply |]. split; [exact Hstore |]. split; [exact Huser |].
  split.
  - intros store_destroy req err w0 w1 Hdestroy.
    unfold Session_destroy_on, bind. rewrite Hdestroy.
    destruct err as [e|]; cbn.
    + repeat split; reflexivity.
    + repeat split; try reflexivity. symmetry. apply app_nil_r.
  - destruct (app_profile c b' (snd (app (mkRequest GET path_logout c b) w)))
      as (w2 & -> & _).
    rewrite Huser. reflexivity.
Qed.

(** ** Bootstrap *)

Lemma Forall_tail {A : Type} (P : A -> Prop) (l : list A) :
  Forall P l -> Forall P (tail l).
Proof.
  destruct l as [|a l]; simpl; intros H.
  - constructor.
  - apply Forall_cons in H as [_ H]. exact H.
Qed.

Ltac still_healthy H :=
  apply healthy_next_fault; unfold healthy in *;
  cbn [faults with_db with_faults with_rng with_console with_sessions
       with_next_sid];
  repeat apply Forall_tail; exact H.

Lemma Role_findOrCreate_answered (name : string) (w : World) :
  next_fault w = None ->
  exists created : bool,
    Role_findOrCreate name w
    = (Ok (fst (ensure_role name (db w)), created),
       with_db (snd (ensure_role name (db w)))
               (with_faults (tail (faults w)) w)).
Proof.
  intros Hf. unfold Role_findOrCreate. rewrite (query_answers _ w Hf).
  unfold ensure_role, insert_role.
  destruct (role_by_name name (db w)) as [r|]; cbn [fst snd].
  - exists false. reflexivity.
  - exists true. reflexivity.
Qed.

Lemma ensure_role_users (name : string) (d : Store) :
  users (snd (ensure_role name d)) = users d /\
  user_seq (snd (ensure_role name d)) = user_seq d.
Proof.
  unfold ensure_role. destruct (role_by_name name d); split; reflexivity.
Qed.

Lemma ensure_role_found (name : string) (d : Store) :
  role_by_name name (snd (ensure_role name d)) = Some (fst (ensure_role name d)).
Proof.
  unfold ensure_role. destruct (role_by_name name d) as [r|] eqn:Hr.
  - exact Hr.
  - cbn [fst snd]. unfold role_by_name in *. cbn [roles].
    rewrite find_snoc, Hr. cbn [role_name].
    rewrite bool_decide_eq_true_2 by reflexivity. reflexivity.
Qed.

(** A role that exists is still found after another is ensured. *)
Lemma ensure_role_keeps (name other : string) (d : Store) (r : Role) :
  role_by_name name d = Some r ->
  role_by_name name (snd (ensure_role other d)) = Some r.
Proof.
  intros Hr. unfold ensure_role. destruct (role_by_name other d).
  - exact Hr.
  - cbn [snd]. unfold role_by_name in *. cbn [roles].
    rewrite find_snoc, Hr. reflexivity.
Qed.

Lemma ensure_role_idle (name : string) (d : Store) :
  is_Some (role_by_name name d) -> snd (ensure_role name d) = d.
Proof. intros [r Hr]. unfold ensure_role. rewrite Hr. reflexivity. Qed.

(** The bootstrap on a store that answers. *)
Lemma startup_healthy (w : World) :
  healthy w -> db (startup w) = bootstrapped (rng w) (db w).
Proof.
  intros Hh. unfold startup, bootstrap, try_catch, bind, sequelize_sync.
  rewrite (query_answers _ w (healthy_next_fault w Hh)). cbn [fst snd].
  unfold console_log at 1.
  match goal with
  | |- context [Role_findOrCreate "user" ?w0] =>
      destruct (Role_findOrCreate_answered "user" w0) as [created1 ->];
        [still_healthy Hh |]
  end.
  match goal with
  | |- context [Role_findOrCreate "admin" ?w0] =>
      destruct (Role_findOrCreate_answered "admin" w0) as [created2 ->];
        [still_healthy Hh |]
  end.
  unfold User_count. rewrite query_answers by still_healthy Hh.
  cbn [fst snd db with_db with_faults with_console].
  unfold bootstrapped.
  destruct (ensure_role "admin" (snd (ensure_role "user" (db w))))
    as [adminRole d2] eqn:Hadmin.
  cbn [fst snd].
  destruct (users d2) as [|u0 us] eqn:Husers.
  - cbn [List.length]. change (Z.of_nat 0 =? 0)%Z with true. cbn beta iota.
    unfold bcrypt_hash_async, User_create.
    rewrite query_answers by still_healthy Hh.
    cbn [fst snd db with_db with_faults with_console with_rng rng].
    unfold insert_user, user_by_login. rewrite Husers. cbn [find].
    assert (Hrid : is_Some (role_by_id (role_id adminRole) d2)).
    { pose proof (ensure_role_found "admin" (snd (ensure_role "user" (db w))))
        as Hfound.
      rewrite Hadmin in Hfound. cbn [fst snd] in Hfound.
      apply find_key_present in Hfound as [Hin _].
      apply (find_key_exists role_id). exact Hin. }
    destruct Hrid as [r' ->]. cbn [fst snd].
    unfold console_log. cbn [fst snd db with_db with_console].
    unfold default_admin. rewrite Husers. reflexivity.
  - replace (Z.of_nat (List.length (u0 :: us)) =? 0)%Z with false
      by (symmetry; apply Z.eqb_neq; cbn [List.length]; lia).
    reflexivity.
Qed.

Lemma Role_findOrCreate_cases (name : string) (w : World) :
  (exists (msg : string) (rest : list (option string)),
      Role_findOrCreate name w
      = (Throw (ConnectionError msg), with_faults rest w)) \/
  (exists created : bool,
      Role_findOrCreate name w
      = (Ok (fst (ensure_role name (db w)), created),
         with_db (snd (ensure_role name (db w)))
                 (with_faults (tail (faults w)) w))).
Proof.
  destruct (query_cases (fun d => (Ok tt, d)) w)
    as [(msg & rest & Hf & _) | [Hn _]].
  - left. exists msg, rest. unfold Role_findOrCreate. now apply query_fails.
  - right. apply Role_findOrCreate_answered. exact Hn.
Qed.

Lemma ensure_role_member (name : string) (d : Store) :
  is_Some (role_by_id (role_id (fst (ensure_role name d)))
                      (snd (ensure_role name d))).
Proof.
  pose proof (ensure_role_found name d) as Hfound.
  apply find_key_present in Hfound as [Hin _].
  apply (find_key_exists role_id). exact Hin.
Qed.

(** Whatever the store does, the bootstrap stops after one of its steps:
    before any write, after the first role, after the second role, or at
    its end. *)
Lemma startup_cases (w : World) :
  let d1 := snd (ensure_role "user" (db w)) in
  let d2 := snd (ensure_role "admin" d1) in
  db (startup w) = db w \/
  db (startup w) = d1 \/
  db (startup w) = d2 \/
  db (startup w) = bootstrapped (rng w) (db w).
Proof.
  intros d1 d2. subst d1 d2.
  unfold startup, bootstrap, try_catch, bind, sequelize_sync.
  destruct (query_cases (fun d => (Ok tt, d)) w)
    as [(msg & rest & _ & ->) | [_ ->]].
  { left. reflexivity. }
  cbn [fst snd]. unfold console_log.
  match goal with
  | |- context [Role_findOrCreate "user" ?w0] =>
      destruct (Role_findOrCreate_cases "user" w0)
        as [(msg & rest & ->) | (created1 & ->)]
  end.
  { left. reflexivity. }
  match goal with
  | |- context [Role_findOrCreate "admin" ?w0] =>
      destruct (Role_findOrCreate_cases "admin" w0)
        as [(msg & rest & ->) | (created2 & ->)]
  end.
  { right. left. reflexivity. }
  unfold User_count.
  match goal with
  | |- context [query ?f ?w0] =>
      destruct (query_cases f w0) as [(msg & rest & _ & ->) | [_ ->]]
  end.
  { right. right. left. reflexivity. }
  cbn [fst snd db with_db with_faults with_console].
  unfold bootstrapped.
  pose proof (ensure_role_member "admin" (snd (ensure_role "user" (db w))))
    as Hrid.
  destruct (ensure_role "admin" (snd (ensure_role "user" (db w))))
    as [adminRole d2] eqn:Hadmin.
  cbn [fst snd] in *.
  destruct (users d2) as [|u0 us] eqn:Husers.
  - cbn [List.length]. change (Z.of_nat 0 =? 0)%Z with true. cbn beta iota.
    unfold bcrypt_hash_async, User_create.
    match goal with
    | |- context [query ?f ?w0] =>
        destruct (query_cases f w0) as [(msg & rest & _ & ->) | [_ ->]]
    end.
    { right. right. left. reflexivity. }
    cbn [fst snd db with_db with_faults with_console with_rng rng].
    unfold insert_user, user_by_login. rewrite Husers. cbn [find].
    destruct Hrid as [r' ->]. cbn [fst snd].
    cbn [fst snd db with_db with_console].
    unfold default_admin. rewrite Husers.
    right. right. right. reflexivity.
  - replace (Z.of_nat (List.length (u0 :: us)) =? 0)%Z with false
      by (symmetry; apply Z.eqb_neq; cbn [List.length]; lia).
    right. right. left. reflexivity.
Qed.

(** The bootstrap never touches the User table when it has a row. *)
Lemma startup_keeps_users (w : World) :
  users (db w) <> [] -> users (db (startup w)) = users (db w).
Proof.
  intros Hne.
  pose proof (ensure_role_users "user" (db w)) as [Hu1 _].
  pose proof (ensure_role_users "admin" (snd (ensure_role "user" (db w))))
    as [Hu2 _].
  destruct (startup_cases w) as [-> | [-> | [-> | ->]]].
  - reflexivity.
  - exact Hu1.
  - rewrite Hu2. exact Hu1.
  - unfold bootstrapped.
    destruct (ensure_role "admin" (snd (ensure_role "user" (db w))))
      as [adminRole d2].
    cbn [snd] in Hu2.
    destruct (users d2) as [|u0 us] eqn:Husers.
    + exfalso. apply Hne. rewrite <- Hu1, <- Hu2. reflexivity.
    + rewrite Husers, Hu2. exact Hu1.
Qed.

(** On a store that has both roles and a user, the bootstrap writes
    nothing, whether or not the store answers. *)
Lemma startup_settled (w : World) :
  is_Some (role_by_name "user" (db w)) ->
  is_Some (role_by_name "admin" (db w)) ->
  users (db w) <> [] ->
  db (startup w) = db w.
Proof.
  intros Huser Hadmin Hne.
  pose proof (ensure_role_idle "user" (db w) Huser) as H1.
  assert (H2 : snd (ensure_role "admin" (snd (ensure_role "user" (db w))))
               = db w).
  { rewrite H1. apply ensure_role_idle. exact Hadmin. }
  destruct (startup_cases w) as [-> | [-> | [-> | ->]]];
    [reflexivity | exact H1 | exact H2 |].
  unfold bootstrapped.
  destruct (ensure_role "admin" (snd (ensure_role "user" (db w))))
    as [adminRole d2].
  cbn [snd] in H2. subst d2.
  destruct (users (db w)) as [|u0 us]; [contradiction | reflexivity].
Qed.

(** After a bootstrap on a store that answers, both roles and a user
    exist. *)
Lemma bootstrapped_settled (salt : nat) (d : Store) :
  is_Some (role_by_name "user" (bootstrapped salt d)) /\
  is_Some (role_by_name "admin" (bootstrapped salt d)) /\
  users (bootstrapped salt d) <> [].
Proof.
  unfold bootstrapped.
  pose proof (ensure_role_found "user" d) as Hu.
  pose proof (ensure_role_keeps "user" "admin" _ _ Hu) as Hu2.
  pose proof (ensure_role_found "admin" (snd (ensure_role "user" d))) as Ha.
  destruct (ensure_role "admin" (snd (ensure_role "user" d)))
    as [adminRole d2].
  cbn [fst snd] in *.
  destruct (users d2) as [|u0 us] eqn:Husers.
  - unfold role_by_name in *. cbn [roles users].
    rewrite Hu2, Ha. repeat split; try (eexists; reflexivity). discriminate.
  - rewrite Hu2, Ha, Husers. repeat split; try (eexists; reflexivity).
    discriminate.
Qed.

(** ** The schema's constraints are kept *)

Lemma role_by_id_snoc (i : Z) (d : Store) (r : Role) (us : list User)
    (s1 s2 : Z) :
  is_Some (role_by_id i d) ->
  is_Some (role_by_id i (mkStore (roles d ++ [r]) us s1 s2)).
Proof.
  intros [r0 Hr0]. unfold role_by_id in *. cbn [roles].
  rewrite find_snoc, Hr0. eexists. reflexivity.
Qed.

Lemma ensure_role_wf (name : string) (d : Store) :
  wf_store d -> wf_store (snd (ensure_role name d)).
Proof.
  intros (Hrid & Hrname & Huid & Hulogin & Hfk).
  unfold ensure_role. destruct (role_by_name name d) as [r|] eqn:Hr.
  - repeat split; assumption.
  - cbn [snd]. unfold wf_store. cbn [roles users role_id].
    rewrite !map_app. cbn [map role_id role_name].
    repeat split.
    + apply NoDup_snoc; [exact Hrid | apply next_id_fresh].
    + apply NoDup_snoc; [exact Hrname |].
      apply (find_key_absent role_name). exact Hr.
    + exact Huid.
    + exact Hulogin.
    + eapply Forall_impl; [exact Hfk |].
      intros u Hu. apply role_by_id_snoc. exact Hu.
Qed.

Lemma insert_user_wf (l password : string) (rid : Z) (d : Store) :
  wf_store d -> wf_store (snd (insert_user (Some l) password rid d)).
Proof.
  intros Hwf. unfold insert_user.
  destruct (user_by_login l d) as [u0|] eqn:Hl; [exact Hwf |].
  destruct (role_by_id rid d) as [r|] eqn:Hr; [| exact Hwf].
  destruct Hwf as (Hrid & Hrname & Huid & Hulogin & Hfk).
  cbn [snd]. unfold wf_store. cbn [roles users user_id].
  rewrite !map_app. cbn [map user_id user_login].
  repeat split.
  - exact Hrid.
  - exact Hrname.
  - apply NoDup_snoc; [exact Huid | apply next_id_fresh].
  - apply NoDup_snoc; [exact Hulogin |].
    apply (find_key_absent user_login). exact Hl.
  - apply Forall_app. split.
    + eapply Forall_impl; [exact Hfk |]. intros u Hu. exact Hu.
    + apply Forall_singleton. cbn [user_roleId].
      unfold role_by_id in *. cbn [roles]. rewrite Hr. eexists. reflexivity.
Qed.

Lemma bootstrapped_wf (salt : nat) (d : Store) :
  wf_store d -> wf_store (bootstrapped salt d).
Proof.
  intros Hwf. unfold bootstrapped.
  pose proof (ensure_role_wf "admin" _ (ensure_role_wf "user" d Hwf)) as Hwf2.
  pose proof (ensure_role_member "admin" (snd (ensure_role "user" d))) as Hrid.
  destruct (ensure_role "admin" (snd (ensure_role "user" d)))
    as [adminRole d2].
  cbn [fst snd] in *.
  destruct (users d2) as [|u0 us] eqn:Husers; [| exact Hwf2].
  pose proof (insert_user_wf "admin" (bcrypt_hash "admin" salt)
                (role_id adminRole) d2 Hwf2) as Hins.
  unfold insert_user, user_by_login in Hins. rewrite Husers in Hins.
  cbn [find] in Hins. destruct Hrid as [r' Hr']. rewrite Hr' in Hins.
  cbn [snd] in Hins. unfold default_admin. rewrite Husers. exact Hins.
Qed.

(** The bootstrap keeps the schema's constraints, whether or not the store
    answers. *)
Lemma startup_wf (w : World) : wf_store (db w) -> wf_store (db (startup w)).
Proof.
  intros Hwf.
  destruct (startup_cases w) as [-> | [-> | [-> | ->]]].
  - exact Hwf.
  - apply ensure_role_wf. exact Hwf.
  - apply ensure_role_wf, ensure_role_wf. exact Hwf.
  - apply bootstrapped_wf. exact Hwf.
Qed.

(** C5. Bootstrap default admin. Started on a store that answers and whose
    User table is empty, the bootstrap leaves exactly one user: its login is
    admin, its roleId is the id of the role named admin, and its password is
    not the text admin but a hash against which admin verifies. Started on a
    store whose User table has a row, it creates no user. *)
Theorem bootstrap_default_admin (w : World) :
  (healthy w ->
   wf_store (db w) ->
   users (db w) = [] ->
   exists (u : User) (r : Role),
     users (db (startup w)) = [u] /\
     user_login u = "admin" /\
     role_by_id (user_roleId u) (db (startup w)) = Some r /\
     role_name r = "admin" /\
     user_password u <> "admin" /\
     bcrypt_compare "admin" (user_password u) = true) /\
  (users (db w) <> [] -> users (db (startup w)) = users (db w)).
Proof.
  split; [| apply startup_keeps_users].
  intros Hh Hwf Hempty. rewrite (startup_healthy w Hh). unfold bootstrapped.
  pose proof (ensure_role_users "user" (db w)) as [Hu1 _].
  pose proof (ensure_role_users "admin" (snd (ensure_role "user" (db w))))
    as [Hu2 _].
  pose proof (ensure_role_wf "admin" _ (ensure_role_wf "user" _ Hwf))
    as (Hrid & _).
  pose proof (ensure_role_found "admin" (snd (ensure_role "user" (db w))))
    as Hfound.
  destruct (ensure_role "admin" (snd (ensure_role "user" (db w))))
    as [adminRole d2].
  cbn [fst snd] in *.
  rewrite Hu2, Hu1, Hempty.
  apply find_key_present in Hfound as [Hin Hname].
  exists (default_admin (rng w) adminRole d2), adminRole.
  cbn [users user_login user_roleId user_password default_admin].
  repeat split.
  - unfold role_by_id. cbn [roles].
    apply (find_unique_key role_id); assumption.
  - exact Hname.
  - destruct (bcrypt_format "admin" (rng w)) as [rest ->]. discriminate.
  - apply bcrypt_sound.
Qed.

(** C8. Bootstrap idempotence. After a first run on a store that answers,
    a second run of the startup sequence on the store the first one left,
    with any state of the process and whether or not the store answers this
    time, leaves the store identical: the same Role and User rows, in the
    same number and with the same values. *)
Theorem bootstrap_idempotent (w w2 : World) :
  healthy w ->
  db w2 = db (startup w) ->
  db (startup w2) = db w2 /\
  roles (db (startup w2)) = roles (db (startup w)) /\
  users (db (startup w2)) = users (db (startup w)).
Proof.
  intros Hh Hsame.
  assert (Hfix : db (startup w2) = db w2).
  { rewrite (startup_healthy w Hh) in Hsame.
    destruct (bootstrapped_settled (rng w) (db w)) as (Hu & Ha & Hne).
    apply startup_settled; rewrite Hsame; assumption. }
  split; [exact Hfix |]. rewrite Hfix, Hsame. split; reflexivity.
Qed.

Ltac db_unchanged :=
  left; cbn [fst snd db with_db with_faults with_console with_rng
             with_sessions with_next_sid]; reflexivity.

Ltac next_query :=
  match goal with
  | |- context [query ?f ?w0] =>
      destruct (query_cases f w0) as [(? & ? & _ & ->) | [_ ->]];
      cbn [fst snd]
  end.

Lemma post_login_db (req : Req) (w : World) :
  writes_at_most_a_user (db w) (db (snd (post_login req w))).
Proof.
  unfold post_login, try_catch, bind, User_findOne.
  destruct (body_login (req_body req)) as [l|]; [| db_unchanged].
  next_query; [db_unchanged |].
  destruct (user_by_login l (db w)) as [u|]; cbn [option_map];
    [| db_unchanged].
  unfold bcrypt_compare_async.
  destruct (body_password (req_body req)) as [p|]; [| db_unchanged].
  unfold ret at 1. cbn [row include_Role user_password].
  destruct (bcrypt_compare p (user_password u)); [| db_unchanged].
  unfold Role_name. cbn [Role_of include_Role].
  destruct (role_by_id (user_roleId u) (db w)); db_unchanged.
Qed.

Lemma post_register_db (req : Req) (w : World) :
  writes_at_most_a_user (db w) (db (snd (post_register req w))).
Proof.
  unfold post_register, try_catch, bind, Role_findOne.
  next_query; [db_unchanged |].
  destruct (role_by_name "user" (db w)) as [r|]; [| db_unchanged].
  unfold bcrypt_hash_async.
  destruct (body_password (req_body req)) as [p|]; [| db_unchanged].
  unfold User_create.
  destruct (body_login (req_body req)) as [l|]; [| db_unchanged].
  next_query; [db_unchanged |].
  cbn [db with_db with_faults with_rng rng].
  right. exists l, (bcrypt_hash p (rng w)), (role_id r).
  destruct (insert_user (Some l) (bcrypt_hash p (rng w)) (role_id r) (db w))
    as [[u|e] d']; reflexivity.
Qed.

Lemma hasRole_db (roleName : string) (next : Handler) (req : Req) (w : World) :
  (forall w0 : World, db (snd (next req w0)) = db w0) ->
  writes_at_most_a_user (db w) (db (snd (hasRole roleName next req w))).
Proof.
  intros Hnext. unfold hasRole, bind, User_findByPk.
  destruct (user (session req)) as [ident|]; [| db_unchanged].
  next_query; [db_unchanged |].
  destruct (user_by_id (id ident) (db w)) as [u|]; cbn [option_map];
    [| db_unchanged].
  unfold Role_name. cbn [Role_of include_Role].
  destruct (role_by_id (user_roleId u) (db w)) as [r|]; [| db_unchanged].
  unfold ret at 1.
  destruct (bool_decide (role_name r = roleName)); [| db_unchanged].
  left. rewrite Hnext. reflexivity.
Qed.

Lemma router_db (m : Method) (p : Path) (handler : Handler) (req : Req)
    (w : World) :
  router m p = Some handler ->
  writes_at_most_a_user (db w) (db (snd (handler req w))).
Proof.
  destruct m, p; intros [= <-].
  - unfold get_root. destruct (user (session req)); db_unchanged.
  - db_unchanged.
  - db_unchanged.
  - unfold get_profile, isAuthenticated, profile_page.
    destruct (user (session req)); db_unchanged.
  - unfold get_admin, isAuthenticated.
    destruct (user (session req)); [| db_unchanged].
    apply hasRole_db. reflexivity.
  - db_unchanged.
  - apply post_register_db.
  - apply post_login_db.
Qed.

Lemma end_response_db (sid : SID) (is_new : bool) (before : SessionData)
    (after : option SessionData) (w : World) :
  db (snd (end_response sid is_new before after w)) = db w.
Proof.
  unfold end_response. destruct after as [s|]; [| reflexivity].
  destruct (decide (s = before)); reflexivity.
Qed.

(** A request changes the store by at most one registered user. *)
Lemma app_db (req : Request) (w : World) :
  writes_at_most_a_user (db w) (db (snd (app req w))).
Proof.
  start_request req w.
  - destruct (router (method req) (path req)) as [handler|] eqn:Hroute;
      [| db_unchanged].
    pose proof (router_db _ _ handler
                  (mkReq (form req) sid s) w Hroute) as Hdb.
    destruct (handler (mkReq (form req) sid s) w) as [[[r after]|e] w2].
    + pose proof (end_response_db sid false s after w2) as Hend.
      destruct (end_response sid false s after w2) as [ck w3].
      cbn [snd] in *. rewrite Hend. exact Hdb.
    + exact Hdb.
  - destruct (router (method req) (path req)) as [handler|] eqn:Hroute;
      [| db_unchanged].
    pose proof (router_db _ _ handler
                  (mkReq (form req) (next_sid w) (mkSession None))
                  (with_next_sid (S (next_sid w)) w) Hroute) as Hdb.
    destruct (handler (mkReq (form req) (next_sid w) (mkSession None))
                      (with_next_sid (S (next_sid w)) w))
      as [[[r after]|e] w2].
    + pose proof (end_response_db (next_sid w) true (mkSession None) after w2)
        as Hend.
      destruct (end_response (next_sid w) true (mkSession None) after w2)
        as [ck w3].
      cbn [snd] in *. rewrite Hend. exact Hdb.
    + exact Hdb.
Qed.

(** Every request keeps the schema's constraints and the roles. *)
Lemma app_wf (req : Request) (w : World) :
  wf_store (db w) -> wf_store (db (snd (app req w))).
Proof.
  intros Hwf. destruct (app_db req w) as [-> | (l & pw & rid & ->)].
  - exact Hwf.
  - apply insert_user_wf. exact Hwf.
Qed.

Lemma app_keeps_roles (req : Request) (w : World) :
  roles (db (snd (app req w))) = roles (db w).
Proof.
  destruct (app_db req w) as [-> | (l & pw & rid & ->)]; [reflexivity |].
  unfold insert_user.
  destruct (user_by_login l (db w)); [reflexivity |].
  destruct (role_by_id rid (db w)); reflexivity.
Qed.

Lemma startup_ready (w : World) :
  healthy w -> wf_store (db w) -> ready (db (startup w)).
Proof.
  intros Hh Hwf. split.
  - apply startup_wf. exact Hwf.
  - rewrite (startup_healthy w Hh). apply bootstrapped_settled.
Qed.

Lemma app_ready (req : Request) (w : World) :
  ready (db w) -> ready (db (snd (app req w))).
Proof.
  intros [Hwf Hrole]. split.
  - apply app_wf. exact Hwf.
  - unfold role_by_name in *. rewrite app_keeps_roles. exact Hrole.
Qed.

(** ** Sessions and cookies *)

Ltac session_kept :=
  left; split; [reflexivity | eexists; reflexivity].

Lemma post_login_session_effect (req : Req) (w : World) :
  session_effect POST path_login req w
    (fst (post_login req w)) (snd (post_login req w)).
Proof.
  unfold post_login, try_catch, bind, User_findOne.
  destruct (body_login (req_body req)) as [l|]; [| session_kept].
  next_query; [session_kept |].
  destruct (user_by_login l (db w)) as [u|]; cbn [option_map];
    [| session_kept].
  unfold bcrypt_compare_async.
  destruct (body_password (req_body req)) as [p|]; [| session_kept].
  unfold ret at 1. cbn [row include_Role user_password].
  destruct (bcrypt_compare p (user_password u)); [| session_kept].
  unfold Role_name. cbn [Role_of include_Role].
  destruct (role_by_id (user_roleId u) (db w)); [| session_kept].
  right. right. left. repeat split. eexists. reflexivity.
Qed.

Lemma post_register_session_effect (req : Req) (w : World) :
  session_effect POST path_register req w
    (fst (post_register req w)) (snd (post_register req w)).
Proof.
  unfold post_register, try_catch, bind, Role_findOne.
  next_query; [session_kept |].
  destruct (role_by_name "user" (db w)) as [r|]; [| session_kept].
  unfold bcrypt_hash_async.
  destruct (body_password (req_body req)) as [p|]; [| session_kept].
  unfold User_create.
  destruct (body_login (req_body req)) as [l|]; [| session_kept].
  next_query; [session_kept |].
  destruct (insert_user _ _ _ _) as [[u|e] d']; session_kept.
Qed.

Lemma get_admin_session_effect (req : Req) (w : World) :
  session_effect GET path_admin req w
    (fst (get_admin req w)) (snd (get_admin req w)).
Proof.
  unfold get_admin, isAuthenticated, hasRole, bind, User_findByPk.
  destruct (user (session req)) as [ident|]; [| session_kept].
  next_query.
  { right. right. right. repeat split. eexists. reflexivity. }
  destruct (user_by_id (id ident) (db w)) as [u|]; cbn [option_map];
    [| session_kept].
  unfold Role_name. cbn [Role_of include_Role].
  destruct (role_by_id (user_roleId u) (db w)) as [r|].
  - unfold ret, admin_page. cbn beta iota.
    destruct (bool_decide (role_name r = "admin")); session_kept.
  - right. right. right. repeat split. eexists. reflexivity.
Qed.

Lemma router_session_effect (m : Method) (p : Path) (handler : Handler)
    (req : Req) (w : World) :
  router m p = Some handler ->
  session_effect m p req w (fst (handler req w)) (snd (handler req w)).
Proof.
  destruct m, p; intros [= <-].
  - unfold get_root. destruct (user (session req)); session_kept.
  - session_kept.
  - session_kept.
  - unfold get_profile, isAuthenticated, profile_page.
    destruct (user (session req)); session_kept.
  - apply get_admin_session_effect.
  - right. left. repeat split.
  - apply post_register_session_effect.
  - apply post_login_session_effect.
Qed.


Ltac route_effect :=
  let h := fresh "handler" in
  let Hr := fresh "Hroute" in
  destruct (router _ _) as [h|] eqn:Hr;
  [ match goal with
    | |- context [h ?rq ?w0] =>
        let He := fresh "Heffect" in
        pose proof (router_session_effect _ _ h rq w0 Hr) as He;
        destruct (h rq w0) as [res w2]; cbn [fst snd session sessionID] in He;
        destruct He
          as [[Hkept [r ->]]
             | [(Hm & Hp & Hkept & ->)
               | [(Hm & Hp & Hkept & ident & ->)
                 | (Hm & Hp & Hkept & e & ->)]]]
    end
  | ].

(** X1. Only a successful login hands out a cookie, and only login and
    logout touch the session store. A request to any other route sets no
    cookie and leaves the session store as it was; a response that sets a
    cookie is the redirect to /profile of a POST /login whose request
    carried no session, and the cookie names a stored session with a
    user. *)
Theorem sessions_touched_only_by_login_and_logout (req : Request) (w : World) :
  ((method req, path req) <> (POST, path_login) ->
   (method req, path req) <> (GET, path_logout) ->
   set_cookie (fst (app req w)) = None /\
   sessions (snd (app req w)) = sessions w) /\
  (forall sid : SID,
      set_cookie (fst (app req w)) = Some sid ->
      method req = POST /\ path req = path_login /\
      reply (fst (app req w)) = Redirect "/profile" /\
      current_user (cookie req) w = None /\
      is_Some (current_user (Some sid) (snd (app req w)))).
Proof.
  split.
  - intros Hlogin Hlogout.
    start_request req w; route_effect;
      try (exfalso; apply Hlogin; congruence);
      try (exfalso; apply Hlogout; congruence).
    + rewrite end_response_unchanged. split; [reflexivity | exact Hkept].
    + split; [reflexivity | exact Hkept].
    + split; reflexivity.
    + rewrite end_response_unchanged. split; [reflexivity | exact Hkept].
    + split; [reflexivity | exact Hkept].
    + split; reflexivity.
  - intros sid0.
    start_request req w; route_effect; cbn [fst snd set_cookie];
      try rewrite end_response_unchanged; cbn [fst snd set_cookie];
      try discriminate.
    + unfold end_response. destruct (decide _); cbn; discriminate.
    + unfold end_response. rewrite decide_False by discriminate.
      cbn. intros [= <-]. unfold current_user. cbn.
      rewrite lookup_insert_eq. cbn.
      repeat split; try assumption. eexists. reflexivity.
Qed.

(** X2. With [saveUninitialized: false] the store never holds an empty
    session: if every stored session carries a user, the same is true after
    the server has handled any sequence of requests, whatever the store
    does. *)
Theorem stored_sessions_carry_a_user (reqs : list Request) (w : World) :
  sessions_populated w -> sessions_populated (serve reqs w).
Proof.
  revert w. induction reqs as [|req rest IH]; intros w Hpop; [exact Hpop |].
  cbn [serve]. apply IH. clear IH.
  assert (Hdel : forall (k sid0 : SID) (s0 : SessionData),
             delete k (sessions w) !! sid0 = Some s0 -> is_Some (user s0)).
  { intros k sid0 s0 Hs0.
    apply lookup_delete_Some in Hs0 as [_ Hs0]. exact (Hpop sid0 s0 Hs0). }
  assert (Hins : forall (k : SID) (i : Identity) (sid0 : SID)
                        (s0 : SessionData),
             <[k := mkSession (Some i)]> (sessions w) !! sid0 = Some s0 ->
             is_Some (user s0)).
  { intros k i sid0 s0 Hs0.
    destruct (decide (k = sid0)) as [-> | Hne].
    - rewrite lookup_insert_eq in Hs0. injection Hs0 as <-.
      eexists. reflexivity.
    - rewrite lookup_insert_ne in Hs0 by exact Hne. exact (Hpop sid0 s0 Hs0). }
  intros sid0 s0.
  start_request req w; route_effect; cbn [fst snd];
    try rewrite end_response_unchanged; cbn [fst snd end_response];
    try rewrite Hkept; try (apply Hpop).
  - apply Hdel.
  - unfold end_response.
    destruct (decide _); cbn [fst snd sessions with_sessions];
      try rewrite Hkept.
    + apply Hpop.
    + apply Hins.
  - apply Hdel.
  - unfold end_response. rewrite decide_False by discriminate.
    cbn [fst snd sessions with_sessions]. try rewrite Hkept. apply Hins.
Qed.

(** X3. Logout removes the session of the request and no other: when the
    cookie names a stored session, the session store after GET /logout is
    the old one without that entry. *)
Theorem logout_removes_own_session_only (sid : SID) (s : SessionData)
    (b : Body) (w : World) :
  sessions w !! sid = Some s ->
  sessions (snd (app (mkRequest GET path_logout (Some sid) b) w))
  = delete sid (sessions w) /\
  forall other : SID,
    other <> sid ->
    sessions (snd (app (mkRequest GET path_logout (Some sid) b) w)) !! other
    = sessions w !! other.
Proof.
  intros Hs.
  assert (Heq : sessions (snd (app (mkRequest GET path_logout (Some sid) b) w))
                = delete sid (sessions w)).
  { start_request (mkRequest GET path_logout (Some sid) b) w.
    - injection Hcookie as <-. reflexivity.
    - rewrite (Hstored sid eq_refl) in Hs. discriminate. }
  split; [exact Heq |].
  intros other Hne. rewrite Heq. apply lookup_delete_ne. congruence.
Qed.


(** ** Writes to the store *)

Ltac db_same :=
  cbn [fst snd db with_db with_faults with_console with_rng with_sessions
       with_next_sid]; reflexivity.

Lemma post_login_reads_only (req : Req) (w : World) :
  db (snd (post_login req w)) = db w.
Proof.
  unfold post_login, try_catch, bind, User_findOne.
  destruct (body_login (req_body req)) as [l|]; [| db_same].
  next_query; [db_same |].
  destruct (user_by_login l (db w)) as [u|]; cbn [option_map]; [| db_same].
  unfold bcrypt_compare_async.
  destruct (body_password (req_body req)) as [p|]; [| db_same].
  unfold ret at 1. cbn [row include_Role user_password].
  destruct (bcrypt_compare p (user_password u)); [| db_same].
  unfold Role_name. cbn [Role_of include_Role].
  destruct (role_by_id (user_roleId u) (db w)); db_same.
Qed.

Lemma get_admin_reads_only (req : Req) (w : World) :
  db (snd (get_admin req w)) = db w.
Proof.
  unfold get_admin, isAuthenticated, hasRole, bind, User_findByPk.
  destruct (user (session req)) as [ident|]; [| db_same].
  next_query; [db_same |].
  destruct (user_by_id (id ident) (db w)) as [u|]; cbn [option_map];
    [| db_same].
  unfold Role_name. cbn [Role_of include_Role].
  destruct (role_by_id (user_roleId u) (db w)) as [r|]; [| db_same].
  unfold ret, admin_page. cbn beta iota.
  destruct (bool_decide (role_name r = "admin")); db_same.
Qed.

Lemma router_reads_only (m : Method) (p : Path) (handler : Handler)
    (req : Req) (w : World) :
  router m p = Some handler ->
  (m, p) <> (POST, path_register) ->
  db (snd (handler req w)) = db w.
Proof.
  destruct m, p; intros [= <-] Hne; try (exfalso; apply Hne; reflexivity).
  - unfold get_root. destruct (user (session req)); db_same.
  - db_same.
  - db_same.
  - unfold get_profile, isAuthenticated, profile_page.
    destruct (user (session req)); db_same.
  - apply get_admin_reads_only.
  - db_same.
  - apply post_login_reads_only.
Qed.

(** X4. Only registration writes to the store: a request to any route
    other than POST /register leaves both tables and their counters as
    they were, whatever the request carries and whatever the store does. *)
Theorem only_registration_writes_the_store (req : Request) (w : World) :
  (method req, path req) <> (POST, path_register) ->
  db (snd (app req w)) = db w.
Proof.
  intros Hne.
  start_request req w;
    (destruct (router (method req) (path req)) as [handler|] eqn:Hroute;
     [| reflexivity]).
  - pose proof (router_reads_only _ _ handler (mkReq (form req) sid s) w
                  Hroute Hne) as Hdb.
    destruct (handler (mkReq (form req) sid s) w) as [[[r after]|e] w2];
      cbn [snd] in *; [| exact Hdb].
    pose proof (end_response_db sid false s after w2) as Hend.
    destruct (end_response sid false s after w2). cbn [snd] in *.
    rewrite Hend. exact Hdb.
  - pose proof (router_reads_only _ _ handler
                  (mkReq (form req) (next_sid w) (mkSession None))
                  (with_next_sid (S (next_sid w)) w) Hroute Hne) as Hdb.
    destruct (handler (mkReq (form req) (next_sid w) (mkSession None))
                      (with_next_sid (S (next_sid w)) w))
      as [[[r after]|e] w2]; cbn [snd] in *; [| exact Hdb].
    pose proof (end_response_db (next_sid w) true (mkSession None) after w2)
      as Hend.
    destruct (end_response (next_sid w) true (mkSession None) after w2).
    cbn [snd] in *. rewrite Hend. exact Hdb.
Qed.

(** The two outcomes of the registration handler. *)
Lemma post_register_outcome (req : Req) (w : World) :
  (exists text : string,
      fst (post_register req w) = Ok (Send 400 text, Some (session req)) /\
      db (snd (post_register req w)) = db w) \/
  (fst (post_register req w) = Ok (Redirect "/login", Some (session req)) /\
   exists (l p : string) (r : Role),
     req_body req = mkBody (Some l) (Some p) /\
     role_by_name "user" (db w) = Some r /\
     user_by_login l (db w) = None /\
     db (snd (post_register req w))
     = mkStore (roles (db w))
               (users (db w) ++ [registered_user l p r w])
               (role_seq (db w))
               (user_id (registered_user l p r w))).
Proof.
  unfold post_register, try_catch, bind, Role_findOne.
  destruct (req_body req) as [lo po]. cbn [body_login body_password].
  next_query.
  { left. eexists. split; [reflexivity | db_same]. }
  destruct (role_by_name "user" (db w)) as [r|] eqn:Hrole.
  2:{ left. eexists. split; [reflexivity | db_same]. }
  unfold bcrypt_hash_async. destruct po as [p|].
  2:{ left. eexists. split; [reflexivity | db_same]. }
  unfold User_create. destruct lo as [l|].
  2:{ left. eexists. split; [reflexivity | db_same]. }
  next_query.
  { left. eexists. split; [reflexivity | db_same]. }
  cbn [db with_db with_faults with_rng rng].
  unfold insert_user.
  destruct (user_by_login l (db w)) as [u0|] eqn:Hlogin.
  { left. eexists. split; [reflexivity | db_same]. }
  destruct (role_by_id (role_id r) (db w)) as [r0|].
  2:{ left. eexists. split; [reflexivity | db_same]. }
  right. split; [reflexivity |]. exists l, p, r.
  repeat split; try assumption.
Qed.

(** X5. Registration is all or nothing. POST /register either answers 400
    and leaves the store as it was, or redirects to /login after appending
    exactly one row to the User table: the login of the form, the bcrypt
    hash of the password of the form, and the id of the role named user,
    whatever else the form holds. The Role table is never changed and no
    existing user row is. *)
Theorem registration_is_all_or_nothing (c : option SID) (b : Body)
    (w : World) :
  (exists text : string,
      fst (app (mkRequest POST path_register c b) w)
      = mkResponse (Send 400 text) None /\
      db (snd (app (mkRequest POST path_register c b) w)) = db w) \/
  (fst (app (mkRequest POST path_register c b) w)
   = mkResponse (Redirect "/login") None /\
   exists (l p : string) (r : Role),
     b = mkBody (Some l) (Some p) /\
     role_by_name "user" (db w) = Some r /\
     user_by_login l (db w) = None /\
     roles (db (snd (app (mkRequest POST path_register c b) w)))
     = roles (db w) /\
     users (db (snd (app (mkRequest POST path_register c b) w)))
     = (users (db w) ++
        [mkUser (next_id user_id (user_seq (db w)) (users (db w)))
                l (bcrypt_hash p (rng w)) (role_id r)])%list).
Proof.
  start_request (mkRequest POST path_register c b) w; cbn [router].
  - destruct (post_register_outcome (mkReq b sid s) w)
      as [(text & Hres & Hdb) | (Hres & l & p & r & Hb & Hrole & Hfree & Hdb)];
      destruct (post_register (mkReq b sid s) w) as [res w2];
      cbn [fst snd session req_body] in *; subst res;
      rewrite end_response_unchanged; cbn [fst snd].
    + left. exists text. split; [reflexivity | exact Hdb].
    + right. split; [reflexivity |]. exists l, p, r. rewrite Hdb.
      repeat split; assumption.
  - destruct (post_register_outcome (mkReq b (next_sid w) (mkSession None))
                (with_next_sid (S (next_sid w)) w))
      as [(text & Hres & Hdb) | (Hres & l & p & r & Hb & Hrole & Hfree & Hdb)];
      destruct (post_register (mkReq b (next_sid w) (mkSession None))
                  (with_next_sid (S (next_sid w)) w)) as [res w2];
      cbn [fst snd session req_body] in *; subst res;
      rewrite end_response_unchanged; cbn [fst snd].
    + left. exists text. split; [reflexivity | exact Hdb].
    + right. split; [reflexivity |]. exists l, p, r. rewrite Hdb.
      repeat split; assumption.
Qed.


(** ** Edges of registration and login *)

(** X6. Registration without the role: when the store answers and holds no
    role named user, POST /register answers 400 with the text of the early
    return, which is not the text of the catch block; no salt is drawn and
    nothing is written to the store. *)
Theorem registration_without_the_role (c : option SID) (b : Body) (w : World) :
  next_fault w = None ->
  role_by_name "user" (db w) = None ->
  fst (app (mkRequest POST path_register c b) w)
  = mkResponse (Send 400 "Роль не найдена") None /\
  db (snd (app (mkRequest POST path_register c b) w)) = db w /\
  rng (snd (app (mkRequest POST path_register c b) w)) = rng w.
Proof.
  intros Hf Hrole.
  start_request (mkRequest POST path_register c b) w; cbn [router];
    unfold post_register, try_catch, bind, Role_findOne.
  - rewrite (query_answers _ w Hf). cbn [fst snd]. rewrite Hrole.
    cbn -[end_response]. rewrite end_response_unchanged.
    repeat split; reflexivity.
  - rewrite (query_answers _ (with_next_sid (S (next_sid w)) w) Hf).
    cbn [fst snd db with_next_sid]. rewrite Hrole.
    repeat split; reflexivity.
Qed.

(** X7. Registration with a field missing from the form. When the store
    answers and holds the role: without a password, [bcrypt.hash] rejects
    and the answer is 400 with that error's message; with a password but
    without a login, the creation is refused for the null login and the
    answer is 400 with that error's message. The store is unchanged in both
    cases. *)
Theorem registration_with_a_missing_field (c : option SID)
    (lo : option string) (p : string) (r : Role) (w : World) :
  healthy w ->
  role_by_name "user" (db w) = Some r ->
  (reply (fst (app (mkRequest POST path_register c (mkBody lo None)) w))
   = Send 400 (register_error_prefix ++
               message (BcryptError "data and salt arguments required")) /\
   db (snd (app (mkRequest POST path_register c (mkBody lo None)) w)) = db w) /\
  (reply (fst (app (mkRequest POST path_register c (mkBody None (Some p))) w))
   = Send 400 (register_error_prefix ++
               message (ValidationError
                          "notNull Violation: User.login cannot be null")) /\
   db (snd (app (mkRequest POST path_register c (mkBody None (Some p))) w))
   = db w).
Proof.
  intros Hh Hrole.
  pose proof (healthy_next_fault w Hh) as Hf.
  split.
  - start_request (mkRequest POST path_register c (mkBody lo None)) w;
      cbn [router]; unfold post_register, try_catch, bind, Role_findOne;
      cbn [req_body body_login body_password session].
    + rewrite (query_answers _ w Hf). cbn [fst snd]. rewrite Hrole.
      cbn -[end_response]. rewrite end_response_unchanged.
      split; reflexivity.
    + rewrite (query_answers _ (with_next_sid (S (next_sid w)) w) Hf).
      cbn [fst snd db with_next_sid]. rewrite Hrole. split; reflexivity.
  - start_request (mkRequest POST path_register c (mkBody None (Some p))) w;
      cbn [router]; unfold post_register, try_catch, bind, Role_findOne;
      cbn [req_body body_login body_password session].
    + rewrite (query_answers _ w Hf). cbn [fst snd]. rewrite Hrole.
      unfold bcrypt_hash_async, User_create.
      cbn -[end_response]. rewrite end_response_unchanged.
      split; reflexivity.
    + rewrite (query_answers _ (with_next_sid (S (next_sid w)) w) Hf).
      cbn [fst snd db with_next_sid]. rewrite Hrole.
      unfold bcrypt_hash_async, User_create.
      split; reflexivity.
Qed.

(** X8. Login without a password. When the store answers: for a login the
    User table has, [bcrypt.compare] rejects and the answer is 500 with
    that error's message; for a login it does not have, the comparison is
    never reached and the answer is the 401 of a failed login. In both
    cases no session is stored and no cookie set. *)
Theorem login_without_a_password (c : option SID) (l : string) (w : World) :
  next_fault w = None ->
  (is_Some (user_by_login l (db w)) ->
   fst (app (mkRequest POST path_login c (mkBody (Some l) None)) w)
   = mkResponse
       (Send 500 (server_error_prefix ++
                  message (BcryptError "data and hash arguments required")))
       None) /\
  (user_by_login l (db w) = None ->
   fst (app (mkRequest POST path_login c (mkBody (Some l) None)) w)
   = mkResponse (Send 401 login_failed_text) None) /\
  sessions (snd (app (mkRequest POST path_login c (mkBody (Some l) None)) w))
  = sessions w.
Proof.
  intros Hf.
  assert (Hall :
    fst (app (mkRequest POST path_login c (mkBody (Some l) None)) w)
    = mkResponse
        match user_by_login l (db w) with
        | Some _ =>
            Send 500 (server_error_prefix ++
                      message (BcryptError "data and hash arguments required"))
        | None => Send 401 login_failed_text
        end None /\
    sessions (snd (app (mkRequest POST path_login c (mkBody (Some l) None)) w))
    = sessions w).
  { start_request (mkRequest POST path_login c (mkBody (Some l) None)) w;
      cbn [router]; unfold post_login, try_catch, bind, User_findOne;
      cbn [req_body body_login body_password session].
    - rewrite (query_answers _ w Hf). cbn [fst snd].
      destruct (user_by_login l (db w)); cbn -[end_response];
        rewrite end_response_unchanged; split; reflexivity.
    - rewrite (query_answers _ (with_next_sid (S (next_sid w)) w) Hf).
      cbn [fst snd db with_next_sid].
      destruct (user_by_login l (db w)); split; reflexivity. }
  destruct Hall as [Hreply Hsess].
  split; [| split; [| exact Hsess]].
  - intros [u Hu]. rewrite Hreply, Hu. reflexivity.
  - intros Hu. rewrite Hreply, Hu. reflexivity.
Qed.

(** X9. Login takes its snapshot from the row. On a store that answers and
    satisfies the schema's constraints, POST /login for any stored user
    whose password verifies redirects to /profile and leaves the client
    with the token of a session holding the row's id, its login and the
    name of the role its roleId refers to; the store is not written. *)
Theorem login_snapshots_the_row (c : option SID) (l p : string) (u : User)
    (w : World) :
  next_fault w = None ->
  wf_store (db w) ->
  user_by_login l (db w) = Some u ->
  bcrypt_compare p (user_password u) = true ->
  let log_in := mkRequest POST path_login c (mkBody (Some l) (Some p)) in
  exists r : Role,
    role_by_id (user_roleId u) (db w) = Some r /\
    reply (fst (app log_in w)) = Redirect "/profile" /\
    current_user (client_token log_in (fst (app log_in w))) (snd (app log_in w))
    = Some (mkIdentity (user_id u) l (role_name r)) /\
    db (snd (app log_in w)) = db w.
Proof.
  intros Hf (_ & _ & _ & _ & Hfk) Hu Hcmp log_in. subst log_in.
  pose proof (find_key_present _ _ _ _ Hu) as [Hin Hlogin].
  rewrite Forall_forall in Hfk.
  destruct (Hfk u (proj2 (list_elem_of_In _ _) Hin)) as [r Hr].
  exists r. split; [exact Hr |].
  destruct (app_login_accepted c l p w u r Hf Hu Hcmp Hr)
    as (Hreply & Htoken & Hdb).
  rewrite Hlogin in Htoken.
  split; [exact Hreply |]. split; [exact Htoken | exact Hdb].
Qed.

(** X10. Login does not change the session id. When the request already
    carries a stored session, a successful POST /login writes the new
    identity under the same id, sets no cookie and leaves every other
    session as it was. *)
Theorem login_keeps_the_session_id (sid : SID) (s : SessionData)
    (l p : string) (u : User) (r : Role) (w : World) :
  sessions w !! sid = Some s ->
  next_fault w = None ->
  user_by_login l (db w) = Some u ->
  bcrypt_compare p (user_password u) = true ->
  role_by_id (user_roleId u) (db w) = Some r ->
  let log_in := mkRequest POST path_login (Some sid) (mkBody (Some l) (Some p)) in
  set_cookie (fst (app log_in w)) = None /\
  sessions (snd (app log_in w)) !! sid
  = Some (mkSession
            (Some (mkIdentity (user_id u) (user_login u) (role_name r)))) /\
  forall other : SID,
    other <> sid ->
    sessions (snd (app log_in w)) !! other = sessions w !! other.
Proof.
  intros Hs Hf Hu Hcmp Hr log_in. subst log_in.
  start_request (mkRequest POST path_login (Some sid) (mkBody (Some l) (Some p))) w;
    cbn [router].
  - injection Hcookie as <-. rewrite Hs in Hstored. injection Hstored as <-.
    rewrite (post_login_accepted sid s w l p u r Hf Hu Hcmp Hr).
    unfold end_response.
    destruct (decide _) as [Heq | Hne]; cbn [fst snd set_cookie sessions
                                            with_sessions with_faults].
    + rewrite Hs, <- Heq. repeat split; reflexivity.
    + rewrite lookup_insert_eq. repeat split; try reflexivity.
      intros other Hother. apply lookup_insert_ne. congruence.
  - rewrite (Hstored sid eq_refl) in Hs. discriminate.
Qed.

(** ** The role guard when the store fails *)

(** X11. The role guard has no catch. For a request that carries a
    session, when the lookup of the user fails, or finds a row whose role
    the join does not find, the promise of the guard rejects and the
    program writes no response of its own: the client gets what the runtime
    makes of the rejection, the error page of Express 5 with status 500 or
    no answer under Express 4, and no cookie is set. *)
Theorem admin_guard_rejections_are_uncaught (c : option SID) (b : Body)
    (ident : Identity) (w : World) :
  current_user c w = Some ident ->
  (forall (msg : string) (rest : list (option string)),
      faults w = Some msg :: rest ->
      fst (app (mkRequest GET path_admin c b) w)
      = mkResponse (rejection (runtime w) (ConnectionError msg)) None) /\
  (forall u : User,
      next_fault w = None ->
      user_by_id (id ident) (db w) = Some u ->
      role_by_id (user_roleId u) (db w) = None ->
      exists e : JsError,
        fst (app (mkRequest GET path_admin c b) w)
        = mkResponse (rejection (runtime w) e) None) /\
  (forall e : JsError,
      fst (app (mkRequest GET path_admin c b) w)
      = mkResponse (rejection (runtime w) e) None ->
      (runtime w = Express5 ->
       fst (app (mkRequest GET path_admin c b) w)
       = mkResponse (ErrorPage e) None /\
       status_of (reply (fst (app (mkRequest GET path_admin c b) w)))
       = Some 500) /\
      (runtime w = Express4 ->
       fst (app (mkRequest GET path_admin c b) w)
       = mkResponse (Unanswered e) None /\
       status_of (reply (fst (app (mkRequest GET path_admin c b) w)))
       = None)).
Proof.
  intros Hsome. split; [| split].
  - intros msg rest Hfaults.
    start_request (mkRequest GET path_admin c b) w; [| congruence].
    rewrite Hsome in Huser. symmetry in Huser.
    cbn [router]. unfold get_admin, isAuthenticated, hasRole.
    cbn [session]. rewrite Huser. unfold bind, User_findByPk.
    rewrite (query_fails _ w msg rest Hfaults). reflexivity.
  - intros u Hf Hu Hr.
    destruct (app_admin_answered c b w ident Hsome Hf) as (w1 & -> & _).
    unfold admin_verdict. rewrite Hu, Hr. eexists. reflexivity.
  - intros e ->. split; intros ->; split; reflexivity.
Qed.

(** ** The home page *)

(** X12. GET / only looks at the session: it redirects to /profile when the
    request carries a session and to /login when it does not, sets no
    cookie, and touches neither the session store nor the store, which is
    not even asked. *)
Theorem home_redirects_by_session (c : option SID) (b : Body) (w : World) :
  fst (app (mkRequest GET path_root c b) w)
  = mkResponse
      (Redirect match current_user c w with
                | Some _ => "/profile"
                | None => "/login"
                end) None /\
  sessions (snd (app (mkRequest GET path_root c b) w)) = sessions w /\
  db (snd (app (mkRequest GET path_root c b) w)) = db w /\
  faults (snd (app (mkRequest GET path_root c b) w)) = faults w.
Proof.
  start_request (mkRequest GET path_root c b) w; cbn [router];
    unfold get_root; cbn [session]; rewrite Huser.
  - destruct (user s); unfold ret; cbn -[end_response];
      rewrite end_response_unchanged; repeat split; reflexivity.
  - repeat split; reflexivity.
Qed.


(** ** The failure schedule is only consumed *)

Lemma query_shape {A : Type} (f : Store -> Result A * Store) (w : World) :
  (exists msg : string,
      query f w
      = (Throw (ConnectionError msg), with_faults (tail (faults w)) w)) \/
  query f w
  = (fst (f (db w)), with_db (snd (f (db w))) (with_faults (tail (faults w)) w)).
Proof.
  destruct (query_cases f w) as [(msg & rest & Hf & ->) | [_ ->]].
  - left. exists msg. rewrite Hf. reflexivity.
  - right. reflexivity.
Qed.

Ltac any_query :=
  match goal with
  | |- context [query ?f ?w0] =>
      destruct (query_shape f w0) as [[? ->] | ->]; cbn [fst snd]
  end.

Ltac tails_healthy H :=
  unfold healthy in *;
  cbn [fst snd faults with_db with_faults with_rng with_console with_sessions
       with_next_sid];
  repeat apply Forall_tail; exact H.

Lemma router_stays_healthy (m : Method) (p : Path) (handler : Handler)
    (req : Req) (w : World) :
  router m p = Some handler -> healthy w -> healthy (snd (handler req w)).
Proof.
  destruct m, p; intros [= <-] Hh.
  - unfold get_root. destruct (user (session req)); exact Hh.
  - exact Hh.
  - exact Hh.
  - unfold get_profile, isAuthenticated, profile_page.
    destruct (user (session req)); exact Hh.
  - unfold get_admin, isAuthenticated, hasRole, bind, User_findByPk.
    destruct (user (session req)) as [ident|]; [| exact Hh].
    any_query; [tails_healthy Hh |].
    destruct (user_by_id (id ident) (db w)) as [u|]; cbn [option_map];
      [| tails_healthy Hh].
    unfold Role_name. cbn [Role_of include_Role].
    destruct (role_by_id (user_roleId u) (db w)) as [r|]; [| tails_healthy Hh].
    unfold ret, admin_page. cbn beta iota.
    destruct (bool_decide (role_name r = "admin")); tails_healthy Hh.
  - tails_healthy Hh.
  - unfold post_register, try_catch, bind, Role_findOne.
    any_query; [tails_healthy Hh |].
    destruct (role_by_name "user" (db w)) as [r|]; [| tails_healthy Hh].
    unfold bcrypt_hash_async.
    destruct (body_password (req_body req)) as [pw|]; [| tails_healthy Hh].
    unfold User_create.
    destruct (body_login (req_body req)) as [l|]; [| tails_healthy Hh].
    any_query; [tails_healthy Hh |].
    destruct (insert_user _ _ _ _) as [[u|e] d']; tails_healthy Hh.
  - unfold post_login, try_catch, bind, User_findOne.
    destruct (body_login (req_body req)) as [l|]; [| tails_healthy Hh].
    any_query; [tails_healthy Hh |].
    destruct (user_by_login l (db w)) as [u|]; cbn [option_map];
      [| tails_healthy Hh].
    unfold bcrypt_compare_async.
    destruct (body_password (req_body req)) as [pw|]; [| tails_healthy Hh].
    unfold ret at 1. cbn [row include_Role user_password].
    destruct (bcrypt_compare pw (user_password u)); [| tails_healthy Hh].
    unfold Role_name. cbn [Role_of include_Role].
    destruct (role_by_id (user_roleId u) (db w)); tails_healthy Hh.
Qed.

Lemma end_response_faults (sid : SID) (is_new : bool) (before : SessionData)
    (after : option SessionData) (w : World) :
  faults (snd (end_response sid is_new before after w)) = faults w.
Proof.
  unfold end_response. destruct after as [s|]; [| reflexivity].
  destruct (decide (s = before)); reflexivity.
Qed.

(** A request on a store that will not fail leaves one that will not. *)
Lemma app_stays_healthy (req : Request) (w : World) :
  healthy w -> healthy (snd (app req w)).
Proof.
  intros Hh.
  start_request req w;
    (destruct (router (method req) (path req)) as [handler|] eqn:Hroute;
     [| exact Hh]).
  - pose proof (router_stays_healthy _ _ handler (mkReq (form req) sid s) w
                  Hroute Hh) as Hw2.
    destruct (handler (mkReq (form req) sid s) w) as [[[r after]|e] w2];
      cbn [snd] in *; [| exact Hw2].
    pose proof (end_response_faults sid false s after w2) as Hend.
    destruct (end_response sid false s after w2). cbn [snd] in *.
    unfold healthy. rewrite Hend. exact Hw2.
  - pose proof (router_stays_healthy _ _ handler
                  (mkReq (form req) (next_sid w) (mkSession None))
                  (with_next_sid (S (next_sid w)) w) Hroute Hh) as Hw2.
    destruct (handler (mkReq (form req) (next_sid w) (mkSession None))
                      (with_next_sid (S (next_sid w)) w))
      as [[[r after]|e] w2]; cbn [snd] in *; [| exact Hw2].
    pose proof (end_response_faults (next_sid w) true (mkSession None) after w2)
      as Hend.
    destruct (end_response (next_sid w) true (mkSession None) after w2).
    cbn [snd] in *. unfold healthy. rewrite Hend. exact Hw2.
Qed.

Lemma keeps_ret {A : Type} (a : A) : keeps_healthy (ret a).
Proof. intros w Hh. exact Hh. Qed.

Lemma keeps_console_log (line : string) : keeps_healthy (console_log line).
Proof. intros w Hh. exact Hh. Qed.

Lemma keeps_console_error (e : JsError) : keeps_healthy (console_error e).
Proof. intros w Hh. exact Hh. Qed.

Lemma keeps_query {A : Type} (f : Store -> Result A * Store) :
  keeps_healthy (query f).
Proof.
  intros w Hh. destruct (query_shape f w) as [[msg ->] | ->]; tails_healthy Hh.
Qed.

Lemma keeps_bcrypt_hash (data : option string) :
  keeps_healthy (bcrypt_hash_async data).
Proof. intros w Hh. destruct data; exact Hh. Qed.

Lemma keeps_bind {A B : Type} (m : M A) (k : A -> M B) :
  keeps_healthy m -> (forall a : A, keeps_healthy (k a)) ->
  keeps_healthy (bind m k).
Proof.
  intros Hm Hk w Hh. unfold bind. specialize (Hm w Hh).
  destruct (m w) as [[a|e] w1]; cbn [snd] in *.
  - apply Hk. exact Hm.
  - exact Hm.
Qed.

Lemma keeps_try_catch {A : Type} (body : M A) (handler : JsError -> M A) :
  keeps_healthy body -> (forall e : JsError, keeps_healthy (handler e)) ->
  keeps_healthy (try_catch body handler).
Proof.
  intros Hb Hc w Hh. unfold try_catch. specialize (Hb w Hh).
  destruct (body w) as [[a|e] w1]; cbn [snd] in *.
  - exact Hb.
  - apply Hc. exact Hb.
Qed.

Lemma startup_stays_healthy (w : World) : healthy w -> healthy (startup w).
Proof.
  revert w. change (keeps_healthy bootstrap). unfold bootstrap.
  apply keeps_try_catch; [| intros e; apply keeps_console_error].
  apply keeps_bind; [apply keeps_query | intros _].
  apply keeps_bind; [apply keeps_console_log | intros _].
  apply keeps_bind; [apply keeps_query | intros userRole].
  apply keeps_bind; [apply keeps_query | intros adminRole].
  apply keeps_bind; [apply keeps_query | intros usersCount].
  destruct (usersCount =? 0)%Z; [| apply keeps_ret].
  apply keeps_bind; [apply keeps_bcrypt_hash | intros hashedPassword].
  apply keeps_bind; [apply keeps_query | intros _].
  apply keeps_console_log.
Qed.

(** ** More on the bootstrap *)

Lemma ensure_role_appends (name : string) (d : Store) :
  exists rs : list Role,
    roles (snd (ensure_role name d)) = (roles d ++ rs)%list /\
    (List.length rs <= 1)%nat.
Proof.
  unfold ensure_role. destruct (role_by_name name d).
  - exists []. split; [symmetry; apply app_nil_r | cbn; lia].
  - eexists [_]. split; [reflexivity | cbn; lia].
Qed.

(** X13. The bootstrap only ever adds rows. Whatever the store holds and
    whether or not it answers, after the bootstrap the Role table is the old
    one followed by at most two new rows and the User table is the old one
    followed by at most one: no existing row is removed or changed. *)
Theorem bootstrap_only_adds_rows (w : World) :
  exists (rs : list Role) (us : list User),
    roles (db (startup w)) = (roles (db w) ++ rs)%list /\
    users (db (startup w)) = (users (db w) ++ us)%list /\
    (List.length rs <= 2)%nat /\
    (List.length us <= 1)%nat.
Proof.
  destruct (ensure_role_appends "user" (db w)) as (rs1 & Hr1 & Hl1).
  destruct (ensure_role_appends "admin" (snd (ensure_role "user" (db w))))
    as (rs2 & Hr2 & Hl2).
  pose proof (ensure_role_users "user" (db w)) as [Hu1 _].
  pose proof (ensure_role_users "admin" (snd (ensure_role "user" (db w))))
    as [Hu2 _].
  assert (Hroles : roles (snd (ensure_role "admin"
                                 (snd (ensure_role "user" (db w)))))
                   = (roles (db w) ++ (rs1 ++ rs2))%list).
  { rewrite Hr2, Hr1. symmetry. apply app_assoc. }
  assert (Hlen : (List.length (rs1 ++ rs2)%list <= 2)%nat).
  { rewrite length_app. lia. }
  destruct (startup_cases w) as [-> | [-> | [-> | ->]]].
  - exists [], []. rewrite !app_nil_r. repeat split; cbn; lia.
  - exists rs1, []. rewrite app_nil_r, Hu1. repeat split; try assumption;
      cbn; lia.
  - exists (rs1 ++ rs2)%list, []. rewrite app_nil_r, Hu2, Hu1.
    repeat split; try assumption; cbn; lia.
  - unfold bootstrapped.
    destruct (ensure_role "admin" (snd (ensure_role "user" (db w))))
      as [adminRole d2].
    cbn [snd] in *.
    destruct (users d2) as [|u0 us] eqn:Husers.
    + exists (rs1 ++ rs2)%list, [default_admin (rng w) adminRole d2].
      cbn [roles users]. rewrite <- Hu1, <- Hu2.
      repeat split; try assumption; cbn; lia.
    + exists (rs1 ++ rs2)%list, []. rewrite app_nil_r, Husers, <- Hu1, <- Hu2.
      repeat split; try assumption; cbn; lia.
Qed.

(** POST /register on an answering store without the role named user. *)
Lemma app_register_roleless (c : option SID) (b : Body) (w : World) :
  next_fault w = None ->
  role_by_name "user" (db w) = None ->
  fst (app (mkRequest POST path_register c b) w)
  = mkResponse (Send 400 "Роль не найдена") None.
Proof.
  intros Hf Hrole.
  start_request (mkRequest POST path_register c b) w; cbn [router];
    unfold post_register, try_catch, bind, Role_findOne.
  - rewrite (query_answers _ w Hf). cbn [fst snd]. rewrite Hrole.
    cbn -[end_response]. rewrite end_response_unchanged. reflexivity.
  - rewrite (query_answers _ (with_next_sid (S (next_sid w)) w) Hf).
    cbn [fst snd db with_next_sid]. rewrite Hrole. reflexivity.
Qed.

(** X14. A bootstrap interrupted before the roles exist leaves the server
    without them. On a store whose Role table is empty, if [sync] succeeds
    and the creation of the first role then fails, the rejection goes to the
    catch of the chain and nothing is written to the store; when the store
    answers again, POST /register is refused with the 400 of the missing
    role, whatever the form holds. *)
Theorem failed_bootstrap_blocks_registration (c : option SID) (b : Body)
    (w : World) (msg : string) (rest : list (option string)) :
  faults w = None :: Some msg :: rest ->
  roles (db w) = [] ->
  Forall (fun f => f = None) rest ->
  db (startup w) = db w /\
  fst (app (mkRequest POST path_register c b) (startup w))
  = mkResponse (Send 400 "Роль не найдена") None.
Proof.
  intros Hfaults Hroles Hrest.
  assert (Hstart : db (startup w) = db w /\ faults (startup w) = rest).
  { unfold startup, bootstrap, try_catch, bind, sequelize_sync.
    rewrite query_answers by (unfold next_fault; now rewrite Hfaults).
    cbn [fst snd]. unfold console_error, console_log, Role_findOrCreate.
    erewrite query_fails by (cbn; rewrite Hfaults; reflexivity).
    split; reflexivity. }
  destruct Hstart as [Hdb Hf]. split; [exact Hdb |].
  apply app_register_roleless.
  - unfold next_fault. rewrite Hf. destruct rest as [|f rest']; [reflexivity |].
    apply Forall_cons in Hrest as [Hnone _]. exact Hnone.
  - unfold role_by_name. rewrite Hdb, Hroles. reflexivity.
Qed.

Lemma serve_ready (reqs : list Request) (w : World) :
  wf_store (db w) ->
  wf_store (db (serve reqs w)) /\ roles (db (serve reqs w)) = roles (db w).
Proof.
  revert w. induction reqs as [|req rest IH]; intros w Hwf; cbn [serve].
  - split; [exact Hwf | reflexivity].
  - destruct (IH (snd (app req w)) (app_wf req w Hwf)) as [Hwf' Hroles].
    split; [exact Hwf' |]. rewrite Hroles. apply app_keeps_roles.
Qed.

(** Once the store has answered [sync] and the creation of the first role,
    the bootstrap stops with that role in the store, whatever the store does
    afterwards. *)
Lemma startup_cases_after_first_role (w : World) :
  next_fault w = None ->
  next_fault (with_faults (tail (faults w)) w) = None ->
  let d1 := snd (ensure_role "user" (db w)) in
  let d2 := snd (ensure_role "admin" d1) in
  db (startup w) = d1 \/
  db (startup w) = d2 \/
  db (startup w) = bootstrapped (rng w) (db w).
Proof.
  intros H1 H2 d1 d2. subst d1 d2.
  unfold startup, bootstrap, try_catch, bind, sequelize_sync.
  rewrite (query_answers _ w H1).
  cbn [fst snd]. unfold console_log.
  match goal with
  | |- context [Role_findOrCreate "user" ?w0] =>
      destruct (Role_findOrCreate_answered "user" w0 H2) as [created1 ->]
  end.
  match goal with
  | |- context [Role_findOrCreate "admin" ?w0] =>
      destruct (Role_findOrCreate_cases "admin" w0)
        as [(msg & rest & ->) | (created2 & ->)]
  end.
  { left. reflexivity. }
  unfold User_count.
  match goal with
  | |- context [query ?f ?w0] =>
      destruct (query_cases f w0) as [(msg & rest & _ & ->) | [_ ->]]
  end.
  { right. left. reflexivity. }
  cbn [fst snd db with_db with_faults with_console].
  unfold bootstrapped.
  pose proof (ensure_role_member "admin" (snd (ensure_role "user" (db w))))
    as Hrid.
  destruct (ensure_role "admin" (snd (ensure_role "user" (db w))))
    as [adminRole d2] eqn:Hadmin.
  cbn [fst snd] in *.
  destruct (users d2) as [|u0 us] eqn:Husers.
  - cbn [List.length]. change (Z.of_nat 0 =? 0)%Z with true. cbn beta iota.
    unfold bcrypt_hash_async, User_create.
    match goal with
    | |- context [query ?f ?w0] =>
        destruct (query_cases f w0) as [(msg & rest & _ & ->) | [_ ->]]
    end.
    { right. left. reflexivity. }
    cbn [fst snd db with_db with_faults with_console with_rng rng].
    unfold insert_user, user_by_login. rewrite Husers. cbn [find].
    destruct Hrid as [r' ->]. cbn [fst snd].
    cbn [fst snd db with_db with_console].
    unfold default_admin. rewrite Husers.
    right. right. reflexivity.
  - replace (Z.of_nat (List.length (u0 :: us)) =? 0)%Z with false
      by (symmetry; apply Z.eqb_neq; cbn [List.length]; lia).
    right. left. reflexivity.
Qed.

Lemma startup_has_the_user_role (w : World) :
  Forall (fun f => f = None) (take 2 (faults w)) ->
  is_Some (role_by_name "user" (db (startup w))).
Proof.
  intros Htake.
  assert (H1 : next_fault w = None).
  { unfold next_fault. destruct (faults w) as [|f1 fs]; [reflexivity |].
    cbn in Htake. apply Forall_cons in Htake as [Hf _]. exact Hf. }
  assert (H2 : next_fault (with_faults (tail (faults w)) w) = None).
  { unfold next_fault. cbn [faults with_faults].
    destruct (faults w) as [|f1 [|f2 fs]]; try reflexivity.
    cbn in Htake. apply Forall_cons in Htake as [_ Htake].
    apply Forall_cons in Htake as [Hf _]. exact Hf. }
  pose proof (ensure_role_found "user" (db w)) as Hu.
  destruct (startup_cases_after_first_role w H1 H2) as [-> | [-> | ->]].
  - eexists. exact Hu.
  - eexists. apply ensure_role_keeps. exact Hu.
  - apply bootstrapped_settled.
Qed.

(** X15. The schema's constraints hold in every state the server reaches.
    Started on a store that satisfies them (an empty one does), after the
    bootstrap and any sequence of requests, whatever the store does in
    between, ids and logins are unique, role names are unique and every
    user's roleId is the id of a role; the requests never change the Role
    table; and when the store answered the first two interactions of the
    bootstrap ([sync] and the creation of the first role), whatever it did
    afterwards, the role named user is there for every later
    registration. *)
Theorem reachable_stores_keep_the_schema (reqs : list Request) (w : World) :
  wf_store (db w) ->
  wf_store (db (serve reqs (startup w))) /\
  roles (db (serve reqs (startup w))) = roles (db (startup w)) /\
  (Forall (fun f => f = None) (take 2 (faults w)) ->
   is_Some (role_by_name "user" (db (serve reqs (startup w))))).
Proof.
  intros Hwf.
  destruct (serve_ready reqs (startup w) (startup_wf w Hwf)) as [Hwf' Hroles].
  split; [exact Hwf' |]. split; [exact Hroles |].
  intros Htake. unfold role_by_name. rewrite Hroles.
  exact (startup_has_the_user_role w Htake).
Qed.

(** The administrator the bootstrap creates on an answering store with an
    empty User table, and the role it refers to. *)
Lemma startup_creates_admin (w : World) :
  healthy w ->
  wf_store (db w) ->
  users (db w) = [] ->
  exists (u : User) (r : Role),
    users (db (startup w)) = [u] /\
    user_login u = "admin" /\
    user_password u = bcrypt_hash "admin" (rng w) /\
    role_by_id (user_roleId u) (db (startup w)) = Some r /\
    role_name r = "admin".
Proof.
  intros Hh Hwf Hempty. rewrite (startup_healthy w Hh). unfold bootstrapped.
  pose proof (ensure_role_users "user" (db w)) as [Hu1 _].
  pose proof (ensure_role_users "admin" (snd (ensure_role "user" (db w))))
    as [Hu2 _].
  pose proof (ensure_role_wf "admin" _ (ensure_role_wf "user" _ Hwf))
    as (Hrid & _).
  pose proof (ensure_role_found "admin" (snd (ensure_role "user" (db w))))
    as Hfound.
  destruct (ensure_role "admin" (snd (ensure_role "user" (db w))))
    as [adminRole d2].
  cbn [fst snd] in *.
  rewrite Hu2, Hu1, Hempty.
  apply find_key_present in Hfound as [Hin Hname].
  exists (default_admin (rng w) adminRole d2), adminRole.
  cbn [users user_login user_roleId user_password default_admin].
  repeat split.
  - unfold role_by_id. cbn [roles].
    apply (find_unique_key role_id); assumption.
  - exact Hname.
Qed.

(** X16. The default administrator can sign in and reach the admin page.
    After the bootstrap of an answering store with an empty User table,
    POST /login with login admin and password admin redirects to /profile
    with a session whose role is admin, and GET /admin with the token of
    that session answers 200. *)
Theorem default_admin_reaches_the_admin_page (c : option SID) (b : Body)
    (w : World) :
  healthy w ->
  wf_store (db w) ->
  users (db w) = [] ->
  let log_in :=
    mkRequest POST path_login c (mkBody (Some "admin") (Some "admin")) in
  let token := client_token log_in (fst (app log_in (startup w))) in
  reply (fst (app log_in (startup w))) = Redirect "/profile" /\
  (exists ident : Identity,
      current_user token (snd (app log_in (startup w))) = Some ident /\
      login ident = "admin" /\ role ident = "admin") /\
  reply (fst (app (mkRequest GET path_admin token b)
                  (snd (app log_in (startup w)))))
  = Send 200 admin_text.
Proof.
  intros Hh Hwf Hempty log_in token. subst token log_in.
  destruct (startup_creates_admin w Hh Hwf Hempty)
    as (u & r & Husers & Hlogin & Hpw & Hrole & Hname).
  pose proof (startup_stays_healthy w Hh) as Hh1.
  assert (Hu : user_by_login "admin" (db (startup w)) = Some u).
  { unfold user_by_login. rewrite Husers. cbn [find].
    rewrite bool_decide_eq_true_2 by exact Hlogin. reflexivity. }
  assert (Hcmp : bcrypt_compare "admin" (user_password u) = true).
  { rewrite Hpw. apply bcrypt_sound. }
  destruct (app_login_accepted c "admin" "admin" (startup w) u r
              (healthy_next_fault _ Hh1) Hu Hcmp Hrole)
    as (Hreply & Htoken & Hdb).
  split; [exact Hreply |]. split.
  - eexists. split; [exact Htoken |]. cbn [login role].
    split; [exact Hlogin | exact Hname].
  - pose proof (app_stays_healthy
                  (mkRequest POST path_login c
                             (mkBody (Some "admin") (Some "admin")))
                  (startup w) Hh1) as Hh2.
    destruct (app_admin_answered _ b _ _ Htoken (healthy_next_fault _ Hh2))
      as (w3 & -> & _).
    cbn [fst reply id]. unfold admin_verdict. rewrite Hdb.
    unfold user_by_id. rewrite Husers. cbn [find].
    rewrite bool_decide_eq_true_2 by reflexivity.
    rewrite Hrole, bool_decide_eq_true_2 by exact Hname. reflexivity.
Qed.

Lemma find_key_fresh {A K : Type} `{EqDecision K} (key : A -> K) (k : K)
    (rows : list A) :
  ~ In k (map key rows) ->
  find (fun r => bool_decide (key r = k)) rows = None.
Proof.
  intros Hk.
  destruct (find (fun r => bool_decide (key r = k)) rows) as [r|] eqn:Hf;
    [| reflexivity].
  apply find_key_present in Hf as [Hin Heq].
  exfalso. apply Hk. rewrite <- Heq. apply in_map. exact Hin.
Qed.

(** X17. A registered user is refused the admin page. Under the conditions
    of the round trip (the store answers, satisfies the schema's
    constraints and holds the role named user), after POST /register and
    POST /login for a new login, GET /admin with the token of the new
    session answers 403. *)
Theorem registered_user_is_refused_the_admin_page (c1 c2 : option SID)
    (b : Body) (l p : string) (w : World) :
  healthy w ->
  wf_store (db w) ->
  is_Some (role_by_name "user" (db w)) ->
  user_by_login l (db w) = None ->
  let register := mkRequest POST path_register c1 (mkBody (Some l) (Some p)) in
  let log_in := mkRequest POST path_login c2 (mkBody (Some l) (Some p)) in
  let w1 := snd (app register w) in
  let token := client_token log_in (fst (app log_in w1)) in
  reply (fst (app (mkRequest GET path_admin token b) (snd (app log_in w1))))
  = Send 403 forbidden_text.
Proof.
  intros Hh Hwf [r Hrole] Hfree register log_in w1 token.
  subst token w1 register log_in.
  destruct (app_register_created c1 w l p r Hh Hrole Hfree)
    as (w1 & -> & Hdb & _ & Hh1).
  cbn [snd].
  pose proof (find_key_present _ _ _ _ Hrole) as [Hin Hname].
  assert (Hu : user_by_login l (db w1) = Some (registered_user l p r w)).
  { rewrite Hdb. unfold user_by_login in *. cbn [users].
    rewrite find_snoc, Hfree. cbn [user_login registered_user].
    rewrite bool_decide_eq_true_2 by reflexivity. reflexivity. }
  assert (Hr : role_by_id (user_roleId (registered_user l p r w)) (db w1)
               = Some r).
  { rewrite Hdb. unfold role_by_id. cbn [roles user_roleId registered_user].
    apply (find_unique_key role_id); [apply Hwf | exact Hin]. }
  assert (Hid : user_by_id (user_id (registered_user l p r w)) (db w1)
                = Some (registered_user l p r w)).
  { rewrite Hdb. unfold user_by_id. cbn [users].
    rewrite find_snoc.
    rewrite (find_key_fresh user_id) by apply next_id_fresh.
    rewrite bool_decide_eq_true_2 by reflexivity. reflexivity. }
  destruct (app_login_accepted c2 l p w1 _ r
              (healthy_next_fault w1 Hh1) Hu (bcrypt_sound p (rng w)) Hr)
    as (_ & Htoken & Hdb2).
  pose proof (app_stays_healthy
                (mkRequest POST path_login c2 (mkBody (Some l) (Some p)))
                w1 Hh1) as Hh2.
  destruct (app_admin_answered _ b _ _ Htoken (healthy_next_fault _ Hh2))
    as (w3 & -> & _).
  cbn [fst reply id]. unfold admin_verdict. rewrite Hdb2, Hid, Hr.
  rewrite bool_decide_eq_false_2; [reflexivity |].
  rewrite Hname. discriminate.
Qed.


(** ** Registering twice, resuming a bootstrap, and who is an administrator *)

(** X18. Registering the same login twice. Under the conditions of the round
    trip, the first POST /register for a new login redirects to /login and
    a second one with the same login, whatever its password, answers 400
    and leaves the store as the first one left it, with exactly one row for
    that login. *)
Theorem registering_twice_keeps_one_row (c1 c2 : option SID) (l p : string)
    (pw2 : option string) (w : World) :
  healthy w ->
  wf_store (db w) ->
  is_Some (role_by_name "user" (db w)) ->
  user_by_login l (db w) = None ->
  let first := mkRequest POST path_register c1 (mkBody (Some l) (Some p)) in
  let second := mkRequest POST path_register c2 (mkBody (Some l) pw2) in
  let w1 := snd (app first w) in
  reply (fst (app first w)) = Redirect "/login" /\
  status_of (reply (fst (app second w1))) = Some 400 /\
  db (snd (app second w1)) = db w1 /\
  List.length (rows_with_login l (db (snd (app second w1)))) = 1%nat.
Proof.
  intros Hh Hwf [r Hrole] Hfree first second w1. subst w1 first second.
  pose proof (app_wf (mkRequest POST path_register c1 (mkBody (Some l) (Some p)))
                w Hwf) as Hwf1.
  destruct (app_register_created c1 w l p r Hh Hrole Hfree)
    as (w1 & Happ & Hdb & _ & _).
  rewrite Happ in *. cbn [fst snd reply] in *.
  split; [reflexivity |].
  assert (Hu : user_by_login l (db w1) = Some (registered_user l p r w)).
  { rewrite Hdb. unfold user_by_login in *. cbn [users].
    rewrite find_snoc, Hfree. cbn [user_login registered_user].
    rewrite bool_decide_eq_true_2 by reflexivity. reflexivity. }
  destruct (app_register_taken c2 w1 l pw2 (ex_intro _ _ Hu))
    as (text & w2 & -> & Hdb2 & _).
  cbn [fst snd reply status_of]. split; [reflexivity |].
  split; [exact Hdb2 |]. rewrite Hdb2. unfold rows_with_login.
  unfold user_by_login in Hu.
  rewrite (unique_key_one_row user_login l (users (db w1)) _ (proj1 (proj2 (proj2 (proj2 Hwf1)))) Hu).
  reflexivity.
Qed.

Lemma bootstrapped_after_first_role (salt : nat) (d : Store) :
  bootstrapped salt (snd (ensure_role "user" d)) = bootstrapped salt d.
Proof.
  unfold bootstrapped.
  rewrite (ensure_role_idle "user" (snd (ensure_role "user" d)))
    by (rewrite ensure_role_found; eexists; reflexivity).
  reflexivity.
Qed.

Lemma bootstrapped_after_both_roles (salt : nat) (d : Store) :
  bootstrapped salt (snd (ensure_role "admin" (snd (ensure_role "user" d))))
  = bootstrapped salt d.
Proof.
  unfold bootstrapped.
  pose proof (ensure_role_found "user" d) as Hu.
  pose proof (ensure_role_keeps "user" "admin" _ _ Hu) as Hu2.
  pose proof (ensure_role_found "admin" (snd (ensure_role "user" d))) as Ha.
  rewrite (ensure_role_idle "user" _ (ex_intro _ _ Hu2)).
  destruct (ensure_role "admin" (snd (ensure_role "user" d)))
    as [adminRole d2] eqn:Hadmin.
  cbn [fst snd] in *.
  unfold ensure_role at 1. rewrite Ha. reflexivity.
Qed.

Lemma bootstrapped_twice (salt salt' : nat) (d : Store) :
  bootstrapped salt' (bootstrapped salt d) = bootstrapped salt d.
Proof.
  destruct (bootstrapped_settled salt d) as (Hu & Ha & Hne).
  unfold bootstrapped at 1.
  rewrite (ensure_role_idle "user" _ Hu).
  destruct Ha as [ra Ha]. unfold ensure_role. rewrite Ha.
  destruct (users (bootstrapped salt d)); [contradiction | reflexivity].
Qed.

(** X19. An interrupted bootstrap is completed by the next start. Whatever
    the store did during a first start, a later start on an answering
    store leaves what a single uninterrupted bootstrap of the original
    store leaves: the same roles and users, the default administrator's
    hash being the one of whichever start created it. *)
Theorem interrupted_bootstrap_is_resumed (w w2 : World) :
  db w2 = db (startup w) ->
  healthy w2 ->
  db (startup w2) = bootstrapped (rng w2) (db w) \/
  db (startup w2) = bootstrapped (rng w) (db w).
Proof.
  intros Hsame Hh2. rewrite (startup_healthy w2 Hh2), Hsame.
  destruct (startup_cases w) as [-> | [-> | [-> | ->]]].
  - left. reflexivity.
  - left. apply bootstrapped_after_first_role.
  - left. apply bootstrapped_after_both_roles.
  - right. apply bootstrapped_twice.
Qed.

Lemma distinct_roles_have_distinct_ids (d : Store) (r1 r2 : Role) :
  NoDup (map role_id (roles d)) ->
  In r1 (roles d) -> In r2 (roles d) ->
  role_name r1 <> role_name r2 ->
  role_id r1 <> role_id r2.
Proof.
  intros Hnd H1 H2 Hname Hid.
  pose proof (find_unique_key role_id (roles d) r1 Hnd H1) as F1.
  pose proof (find_unique_key role_id (roles d) r2 Hnd H2) as F2.
  rewrite Hid, F2 in F1. injection F1 as ->. contradiction.
Qed.

Lemma filter_snoc_out {A : Type} (f : A -> bool) (l : list A) (x : A) :
  f x = false -> List.filter f (l ++ [x]) = List.filter f l.
Proof.
  intros Hx. rewrite List.filter_app. cbn [List.filter]. rewrite Hx.
  apply app_nil_r.
Qed.

(** A request leaves the administrators as they were. *)
Lemma app_keeps_administrators (req : Request) (w : World) (ra : Role) :
  wf_store (db w) ->
  role_by_name "admin" (db w) = Some ra ->
  users_with_role (role_id ra) (db (snd (app req w)))
  = users_with_role (role_id ra) (db w).
Proof.
  intros Hwf Hadmin.
  assert (Hcases : (method req, path req) = (POST, path_register) \/
                   (method req, path req) <> (POST, path_register)).
  { destruct (method req), (path req);
      first [left; reflexivity | right; discriminate]. }
  destruct Hcases as [Heq | Hne].
  - destruct req as [m pa c b]. cbn [method path] in Heq.
    injection Heq as -> ->.
    start_request (mkRequest POST path_register c b) w; cbn [router].
    + destruct (post_register_outcome (mkReq b sid s) w)
        as [(text & Hres & Hdb)
           | (Hres & l & p & r & _ & Hrole & _ & Hdb)];
        destruct (post_register (mkReq b sid s) w) as [res w2];
        cbn [fst snd session] in *; subst res;
        rewrite end_response_unchanged; cbn [snd]; rewrite Hdb;
        [reflexivity |].
      unfold users_with_role. cbn [users]. apply filter_snoc_out.
      cbn [user_roleId registered_user]. apply bool_decide_eq_false_2.
      apply find_key_present in Hrole as [Hin Hn].
      apply find_key_present in Hadmin as [Hina Hna].
      apply (distinct_roles_have_distinct_ids (db w)); try assumption;
        [apply Hwf | rewrite Hn, Hna; discriminate].
    + destruct (post_register_outcome (mkReq b (next_sid w) (mkSession None))
                  (with_next_sid (S (next_sid w)) w))
        as [(text & Hres & Hdb)
           | (Hres & l & p & r & _ & Hrole & _ & Hdb)];
        destruct (post_register (mkReq b (next_sid w) (mkSession None))
                    (with_next_sid (S (next_sid w)) w)) as [res w2];
        cbn [fst snd session db with_next_sid] in *; subst res;
        rewrite end_response_unchanged; cbn [snd]; rewrite Hdb;
        [reflexivity |].
      unfold users_with_role. cbn [users]. apply filter_snoc_out.
      cbn [user_roleId registered_user]. apply bool_decide_eq_false_2.
      apply find_key_present in Hrole as [Hin Hn].
      apply find_key_present in Hadmin as [Hina Hna].
      apply (distinct_roles_have_distinct_ids (db w)); try assumption;
        [apply Hwf | rewrite Hn, Hna; discriminate].
  - assert (Hdb : db (snd (app req w)) = db w).
    { start_request req w;
        (destruct (router (method req) (path req)) as [handler|] eqn:Hroute;
         [| reflexivity]).
      - pose proof (router_reads_only _ _ handler (mkReq (form req) sid s) w
                      Hroute Hne) as Hdb.
        destruct (handler (mkReq (form req) sid s) w) as [[[r after]|e] w2];
          cbn [snd] in *; [| exact Hdb].
        pose proof (end_response_db sid false s after w2) as Hend.
        destruct (end_response sid false s after w2). cbn [snd] in *.
        rewrite Hend. exact Hdb.
      - pose proof (router_reads_only _ _ handler
                      (mkReq (form req) (next_sid w) (mkSession None))
                      (with_next_sid (S (next_sid w)) w) Hroute Hne) as Hdb.
        destruct (handler (mkReq (form req) (next_sid w) (mkSession None))
                          (with_next_sid (S (next_sid w)) w))
          as [[[r after]|e] w2]; cbn [snd] in *; [| exact Hdb].
        pose proof (end_response_db (next_sid w) true (mkSession None) after w2)
          as Hend.
        destruct (end_response (next_sid w) true (mkSession None) after w2).
        cbn [snd] in *. rewrite Hend. exact Hdb. }
    rewrite Hdb. reflexivity.
Qed.

(** X20. No request makes an administrator. On a store that satisfies the
    schema's constraints and holds the role named admin, the users whose
    role is admin are the same after any sequence of requests as before,
    whatever the forms hold and whatever the store does: registration only
    ever gives the role named user. *)
Theorem no_request_makes_an_administrator (reqs : list Request) (w : World)
    (ra : Role) :
  wf_store (db w) ->
  role_by_name "admin" (db w) = Some ra ->
  users_with_role (role_id ra) (db (serve reqs w))
  = users_with_role (role_id ra) (db w).
Proof.
  revert w. induction reqs as [|req rest IH]; intros w Hwf Hadmin;
    cbn [serve]; [reflexivity |].
  rewrite IH.
  - apply app_keeps_administrators; assumption.
  - apply app_wf. exact Hwf.
  - unfold role_by_name in *. rewrite app_keeps_roles. exact Hadmin.
Qed.


End Properties.

(** * Worked instances of the properties *)

Lemma test_sound (p : string) (salt : nat) :
  test_compare p (test_hash p salt) = true.
Proof. unfold test_compare, test_hash. apply bool_decide_eq_true_2. reflexivity. Qed.

Lemma test_format (p : string) (salt : nat) :
  exists rest : string, test_hash p salt = "$2b$10$" ++ rest.
Proof. exists p. reflexivity. Qed.

Example started_store :
  db started
  = mkStore [mkRole 1 "user"; mkRole 2 "admin"]
            [mkUser 1 "admin" "$2b$10$admin" 2] 2 1.
Proof. reflexivity. Qed.

Example bob_session :
  current_user bob_token bob_logged_in = Some bob_identity.
Proof. vm_compute. reflexivity. Qed.

Lemma started_healthy : healthy started.
Proof. constructor. Qed.

Lemma started_wf : wf_store (db started).
Proof. apply (bool_decide_unpack _). vm_compute. exact I. Qed.

Lemma register_then_login_witness :
  healthy started /\
  wf_store (db started) /\
  is_Some (role_by_name "user" (db started)) /\
  user_by_login "bob" (db started) = None /\
  reply (fst (app (bcrypt := test_bcrypt)
                (mkRequest POST path_register None bob) started))
  = Redirect "/login" /\
  reply (fst (app (bcrypt := test_bcrypt)
                (mkRequest POST path_login None bob)
                (snd (app (bcrypt := test_bcrypt)
                        (mkRequest POST path_register None bob) started))))
  = Redirect "/profile".
Proof.
  assert (Hh : healthy started) by constructor.
  assert (Hwf : wf_store (db started))
    by (apply (bool_decide_unpack _); vm_compute; exact I).
  assert (Hrole : is_Some (role_by_name "user" (db started)))
    by (eexists; reflexivity).
  assert (Hfree : user_by_login "bob" (db started) = None) by reflexivity.
  pose proof (register_then_login (bcrypt := test_bcrypt) test_sound
                None None "bob" "secret" started Hh Hwf Hrole Hfree)
    as (Hreg & Hlog & _).
  exact (conj Hh (conj Hwf (conj Hrole (conj Hfree (conj Hreg Hlog))))).
Defined.

Lemma admin_requires_role_witness :
  current_user bob_token bob_logged_in = Some bob_identity /\
  next_fault bob_logged_in = None /\
  reply (fst (app (bcrypt := test_bcrypt)
                (mkRequest GET path_admin bob_token no_form) bob_logged_in))
  = Send 403 forbidden_text /\
  reply (fst (app (bcrypt := test_bcrypt)
                (mkRequest GET path_admin None no_form) bob_logged_in))
  = Redirect "/login".
Proof.
  assert (Hc : current_user bob_token bob_logged_in = Some bob_identity)
    by (vm_compute; reflexivity).
  assert (Hf : next_fault bob_logged_in = None) by reflexivity.
  destruct (admin_requires_role (bcrypt := test_bcrypt) bob_token no_form
              bob_logged_in) as [_ Hsession].
  destruct (Hsession bob_identity Hc Hf) as (_ & Hother & _).
  destruct (admin_requires_role (bcrypt := test_bcrypt) None no_form
              bob_logged_in) as [Hnone _].
  split; [exact Hc |]. split; [exact Hf |]. split.
  - apply (Hother (mkUser 2 "bob" "$2b$10$secret" 1) (mkRole 1 "user"));
      [vm_compute; reflexivity | vm_compute; reflexivity | discriminate].
  - apply Hnone. reflexivity.
Defined.

Lemma failed_login_is_401_witness :
  next_fault started = None /\
  user_by_login "nobody" (db started) = None /\
  fst (app (bcrypt := test_bcrypt)
         (mkRequest POST path_login None
                    (mkBody (Some "nobody") (Some "secret"))) started)
  = mkResponse (Send 401 login_failed_text) None /\
  fst (app (bcrypt := test_bcrypt)
         (mkRequest POST path_login None
                    (mkBody (Some "admin") (Some "guess"))) started)
  = mkResponse (Send 401 login_failed_text) None.
Proof.
  assert (Hf : next_fault started = None) by reflexivity.
  assert (Hnone : user_by_login "nobody" (db started) = None) by reflexivity.
  split; [exact Hf |]. split; [exact Hnone |]. split.
  - apply (failed_login_is_401 (bcrypt := test_bcrypt) None "nobody" "secret"
             started Hf).
    left. exact Hnone.
  - apply (failed_login_is_401 (bcrypt := test_bcrypt) None "admin" "guess"
             started Hf).
    right. exists (mkUser 1 "admin" "$2b$10$admin" 2).
    split; vm_compute; reflexivity.
Defined.

Lemma duplicate_registration_rejected_witness :
  wf_store (db started) /\
  is_Some (user_by_login "admin" (db started)) /\
  status_of (reply (fst (app (bcrypt := test_bcrypt)
                           (mkRequest POST path_register None
                              (mkBody (Some "admin") (Some "again")))
                           started)))
  = Some 400 /\
  db (snd (app (bcrypt := test_bcrypt)
             (mkRequest POST path_register None
                (mkBody (Some "admin") (Some "again"))) started))
  = db started /\
  List.length (rows_with_login "admin"
                 (db (snd (app (bcrypt := test_bcrypt)
                             (mkRequest POST path_register None
                                (mkBody (Some "admin") (Some "again")))
                             started))))
  = 1%nat.
Proof.
  assert (Hwf : wf_store (db started))
    by (apply (bool_decide_unpack _); vm_compute; exact I).
  assert (Hu : is_Some (user_by_login "admin" (db started)))
    by (eexists; reflexivity).
  destruct (duplicate_registration_rejected (bcrypt := test_bcrypt) None
              "admin" (Some "again") started Hwf Hu)
    as (H400 & Hdb & Hone & _).
  exact (conj Hwf (conj Hu (conj H400 (conj Hdb Hone)))).
Defined.

Lemma bootstrap_default_admin_witness :
  healthy first_start /\
  wf_store (db first_start) /\
  users (db first_start) = [] /\
  exists (u : User) (r : Role),
    users (db (startup (bcrypt := test_bcrypt) first_start)) = [u] /\
    user_login u = "admin" /\
    role_by_id (user_roleId u) (db (startup (bcrypt := test_bcrypt) first_start))
    = Some r /\
    role_name r = "admin" /\
    user_password u <> "admin" /\
    test_compare "admin" (user_password u) = true.
Proof.
  assert (Hh : healthy first_start) by constructor.
  assert (Hwf : wf_store (db first_start))
    by (apply (bool_decide_unpack _); vm_compute; exact I).
  assert (He : users (db first_start) = []) by reflexivity.
  split; [exact Hh |]. split; [exact Hwf |]. split; [exact He |].
  exact (proj1 (bootstrap_default_admin (bcrypt := test_bcrypt) test_sound
                  test_format first_start) Hh Hwf He).
Defined.

Lemma profile_requires_session_witness :
  current_user None bob_logged_in = None /\
  current_user bob_token bob_logged_in = Some bob_identity /\
  fst (app (bcrypt := test_bcrypt)
         (mkRequest GET path_profile None no_form) bob_logged_in)
  = mkResponse (Redirect "/login") None /\
  fst (app (bcrypt := test_bcrypt)
         (mkRequest GET path_profile bob_token no_form) bob_logged_in)
  = mkResponse
      (Send 200
         ("Добро пожаловать, bob! <a href="
            ++ String "034"%char
                 ("/logout" ++ String "034"%char ">Выйти</a>")))
      None.
Proof.
  assert (Hnone : current_user None bob_logged_in = None) by reflexivity.
  assert (Hc : current_user bob_token bob_logged_in = Some bob_identity)
    by (vm_compute; reflexivity).
  split; [exact Hnone |]. split; [exact Hc |]. split.
  - exact (proj1 (proj1 (profile_requires_session (bcrypt := test_bcrypt)
                           None no_form bob_logged_in) Hnone)).
  - exact (proj1 (proj2 (profile_requires_session (bcrypt := test_bcrypt)
                           bob_token no_form bob_logged_in)
                    bob_identity Hc)).
Defined.

(** C7, as the claim states it, fails: with the store down, POST /register
    answers 400, not 500, and under Express 4 GET /admin is not answered at
    all. *)
Lemma register_store_failure_is_400 :
  faults (with_faults [Some store_down] started) = [Some store_down] /\
  is_infrastructure (ConnectionError store_down) = true /\
  reply (fst (app (bcrypt := test_bcrypt)
                (mkRequest POST path_register None bob)
                (with_faults [Some store_down] started)))
  = Send 400 ("Ошибка регистрации: " ++ store_down) /\
  status_of (reply (fst (app (bcrypt := test_bcrypt)
                           (mkRequest POST path_register None bob)
                           (with_faults [Some store_down] started))))
  <> Some 500 /\
  current_user bob_token
    (with_runtime Express4 (with_faults [Some store_down] bob_logged_in))
  = Some bob_identity /\
  status_of (reply (fst (app (bcrypt := test_bcrypt)
                           (mkRequest GET path_admin bob_token no_form)
                           (with_runtime Express4
                              (with_faults [Some store_down] bob_logged_in)))))
  <> Some 500.
Proof.
  split; [reflexivity |]. split; [reflexivity |]. split; [| split; [| split]].
  - vm_compute. reflexivity.
  - vm_compute. discriminate.
  - vm_compute. reflexivity.
  - vm_compute. discriminate.
Qed.

Lemma store_failure_responses_witness :
  faults (with_faults [Some store_down] started) = [Some store_down] /\
  reply (fst (app (bcrypt := test_bcrypt)
                (mkRequest POST path_login None bob)
                (with_faults [Some store_down] started)))
  = Send 500 ("Ошибка сервера: " ++ store_down) /\
  reply (fst (app (bcrypt := test_bcrypt)
                (mkRequest POST path_register None bob)
                (with_faults [Some store_down] started)))
  = Send 400 ("Ошибка регистрации: " ++ store_down) /\
  reply (fst (app (bcrypt := test_bcrypt)
                (mkRequest POST path_register None bob)
                (with_faults [None; Some store_down] started)))
  = Send 400 ("Ошибка регистрации: " ++ store_down) /\
  reply (fst (app (bcrypt := test_bcrypt)
                (mkRequest POST path_register None
                           (mkBody (Some "admin") (Some "secret"))) started))
  = Send 400 ("Ошибка регистрации: " ++ "Validation error") /\
  status_of
    (reply (fst (app (bcrypt := test_bcrypt)
                   (mkRequest GET path_admin bob_token no_form)
                   (with_faults [Some store_down] bob_logged_in))))
  = Some 500 /\
  status_of
    (reply (fst (app (bcrypt := test_bcrypt)
                   (mkRequest GET path_admin bob_token no_form)
                   (with_runtime Express4
                      (with_faults [Some store_down] bob_logged_in)))))
  = None.
Proof.
  assert (Hf : faults (with_faults [Some store_down] started)
               = [Some store_down]) by reflexivity.
  destruct (store_failure_responses (bcrypt := test_bcrypt) None "bob"
              "secret" (Some "secret") bob
              (with_faults [Some store_down] started)
              store_down []) as (Hlogin & Hregister & _).
  destruct (store_failure_responses (bcrypt := test_bcrypt) None "bob"
              "secret" None bob (with_faults [None; Some store_down] started)
              store_down []) as (_ & _ & Hinsert & _).
  destruct (store_failure_responses (bcrypt := test_bcrypt) None "admin"
              "secret" None bob started store_down [])
    as (_ & _ & _ & Hunique & _).
  destruct (store_failure_responses (bcrypt := test_bcrypt) bob_token "bob"
              "secret" None no_form
              (with_faults [Some store_down] bob_logged_in) store_down [])
    as (_ & _ & _ & _ & Hadmin5).
  destruct (store_failure_responses (bcrypt := test_bcrypt) bob_token "bob"
              "secret" None no_form
              (with_runtime Express4
                 (with_faults [Some store_down] bob_logged_in))
              store_down [])
    as (_ & _ & _ & _ & Hadmin4).
  assert (Hc5 : current_user bob_token
                  (with_faults [Some store_down] bob_logged_in)
                = Some bob_identity) by (vm_compute; reflexivity).
  assert (Hc4 : current_user bob_token
                  (with_runtime Express4
                     (with_faults [Some store_down] bob_logged_in))
                = Some bob_identity) by (vm_compute; reflexivity).
  split; [exact Hf |]. split; [exact (Hlogin Hf) |].
  split; [exact (Hregister Hf) |].
  split; [apply (Hinsert (mkRole 1 "user")); reflexivity |].
  split.
  - apply (Hunique (mkRole 1 "user") (mkUser 1 "admin" "$2b$10$admin" 2));
      [constructor | reflexivity | reflexivity].
  - split.
    + apply (proj1 (proj2 (Hadmin5 bob_identity Hc5 eq_refl))). reflexivity.
    + apply (proj2 (proj2 (Hadmin4 bob_identity Hc4 eq_refl))). reflexivity.
Defined.

Lemma bootstrap_idempotent_witness :
  healthy first_start /\
  db (startup (bcrypt := test_bcrypt)
        (with_faults [None; Some store_down] started))
  = db started.
Proof.
  assert (Hh : healthy first_start) by constructor.
  split; [exact Hh |].
  exact (proj1 (bootstrap_idempotent (bcrypt := test_bcrypt) first_start
                  (with_faults [None; Some store_down] started)
                  Hh eq_refl)).
Defined.

Lemma profile_trusts_snapshot_witness :
  current_user bob_token bob_logged_in = Some bob_identity /\
  user_by_id (id bob_identity) bob_deleted = None /\
  fst (app (bcrypt := test_bcrypt)
         (mkRequest GET path_profile bob_token no_form)
         (with_db bob_deleted (with_faults [] bob_logged_in)))
  = mkResponse
      (Send 200
         ("Добро пожаловать, bob! <a href="
            ++ String "034"%char
                 ("/logout" ++ String "034"%char ">Выйти</a>")))
      None /\
  fst (app (bcrypt := test_bcrypt)
         (mkRequest GET path_profile bob_token no_form)
         (with_db bob_deleted (with_faults [Some store_down] bob_logged_in)))
  = mkResponse
      (Send 200
         ("Добро пожаловать, bob! <a href="
            ++ String "034"%char
                 ("/logout" ++ String "034"%char ">Выйти</a>")))
      None /\
  reply (fst (app (bcrypt := test_bcrypt)
                (mkRequest GET path_admin bob_token no_form)
                (with_db bob_deleted (with_faults [] bob_logged_in))))
  = Send 403 forbidden_text.
Proof.
  assert (Hc : current_user bob_token bob_logged_in = Some bob_identity)
    by (vm_compute; reflexivity).
  assert (Hgone : user_by_id (id bob_identity) bob_deleted = None)
    by reflexivity.
  destruct (profile_trusts_snapshot (bcrypt := test_bcrypt) bob_token no_form
              bob_logged_in bob_identity bob_deleted [] Hc)
    as (Hp & _ & _ & _ & Hadmin & _).
  destruct (profile_trusts_snapshot (bcrypt := test_bcrypt) bob_token no_form
              bob_logged_in bob_identity bob_deleted [Some store_down] Hc)
    as (Hp' & _).
  exact (conj Hc (conj Hgone (conj Hp (conj Hp' (Hadmin Hgone eq_refl))))).
Defined.

Lemma logout_destroys_session_witness :
  fst (app (bcrypt := test_bcrypt)
         (mkRequest GET path_logout bob_token no_form) bob_logged_in)
  = mkResponse (Redirect "/") None /\
  fst (Session_destroy_on (fun _ => ret (Some store_down))
         (mkReq no_form 1%nat (mkSession (Some bob_identity)))
         logout_callback bob_logged_in)
  = Ok (Redirect "/", None) /\
  fst (app (bcrypt := test_bcrypt)
         (mkRequest GET path_profile bob_token no_form)
         (snd (app (bcrypt := test_bcrypt)
                 (mkRequest GET path_logout bob_token no_form) bob_logged_in)))
  = mkResponse (Redirect "/login") None.
Proof.
  destruct (logout_destroys_session (bcrypt := test_bcrypt) bob_token no_form
              no_form bob_logged_in) as (Hreply & _ & _ & Hany & Hprofile).
  split; [exact Hreply |]. split; [| exact Hprofile].
  apply (Hany (fun _ => ret (Some store_down))
              (mkReq no_form 1%nat (mkSession (Some bob_identity)))
              (Some store_down) bob_logged_in bob_logged_in).
  reflexivity.
Defined.

(** ** Worked instances of the further properties *)

Lemma sessions_touched_only_by_login_and_logout_witness :
  set_cookie (fst (app (bcrypt := test_bcrypt) bob_logs_in
                     (snd (app (bcrypt := test_bcrypt) bob_registers started))))
  = Some 1%nat /\
  reply (fst (app (bcrypt := test_bcrypt) bob_logs_in
                (snd (app (bcrypt := test_bcrypt) bob_registers started))))
  = Redirect "/profile" /\
  set_cookie (fst (app (bcrypt := test_bcrypt) bob_registers started)) = None /\
  sessions (snd (app (bcrypt := test_bcrypt) bob_registers started))
  = sessions started.
Proof.
  assert (Hc : set_cookie
                 (fst (app (bcrypt := test_bcrypt) bob_logs_in
                         (snd (app (bcrypt := test_bcrypt) bob_registers
                                 started))))
               = Some 1%nat) by (vm_compute; reflexivity).
  destruct (proj2 (sessions_touched_only_by_login_and_logout
                     (bcrypt := test_bcrypt) bob_logs_in
                     (snd (app (bcrypt := test_bcrypt) bob_registers started)))
              1%nat Hc) as (_ & _ & Hreply & _).
  destruct (proj1 (sessions_touched_only_by_login_and_logout
                     (bcrypt := test_bcrypt) bob_registers started))
    as [Hnone Hsame]; [discriminate | discriminate |].
  exact (conj Hc (conj Hreply (conj Hnone Hsame))).
Defined.

Lemma stored_sessions_carry_a_user_witness :
  sessions_populated started /\
  sessions_populated
    (serve (bcrypt := test_bcrypt)
       [bob_registers; bob_logs_in;
        mkRequest GET path_profile None no_form] started).
Proof.
  assert (Hpop : sessions_populated started).
  { intros sid s Hs. vm_compute in Hs. discriminate. }
  split; [exact Hpop |].
  apply (stored_sessions_carry_a_user (bcrypt := test_bcrypt)). exact Hpop.
Defined.

Lemma logout_removes_own_session_only_witness :
  sessions bob_logged_in !! 1%nat = Some (mkSession (Some bob_identity)) /\
  sessions (snd (app (bcrypt := test_bcrypt)
                   (mkRequest GET path_logout bob_token no_form) bob_logged_in))
  = delete 1%nat (sessions bob_logged_in).
Proof.
  assert (Hs : sessions bob_logged_in !! 1%nat
               = Some (mkSession (Some bob_identity)))
    by (vm_compute; reflexivity).
  split; [exact Hs |].
  exact (proj1 (logout_removes_own_session_only (bcrypt := test_bcrypt)
                  1%nat _ no_form bob_logged_in Hs)).
Defined.

Lemma only_registration_writes_the_store_witness :
  (method bob_logs_in, path bob_logs_in) <> (POST, path_register) /\
  db (snd (app (bcrypt := test_bcrypt) bob_logs_in started)) = db started.
Proof.
  assert (Hne : (method bob_logs_in, path bob_logs_in) <> (POST, path_register))
    by discriminate.
  split; [exact Hne |].
  exact (only_registration_writes_the_store (bcrypt := test_bcrypt)
           bob_logs_in started Hne).
Defined.

Lemma registration_without_the_role_witness :
  next_fault interrupted = None /\
  role_by_name "user" (db interrupted) = None /\
  fst (app (bcrypt := test_bcrypt) bob_registers interrupted)
  = mkResponse (Send 400 "Роль не найдена") None.
Proof.
  assert (Hf : next_fault interrupted = None) by reflexivity.
  assert (Hr : role_by_name "user" (db interrupted) = None) by reflexivity.
  split; [exact Hf |]. split; [exact Hr |].
  exact (proj1 (registration_without_the_role (bcrypt := test_bcrypt)
                  None bob interrupted Hf Hr)).
Defined.

Lemma registration_with_a_missing_field_witness :
  healthy started /\
  role_by_name "user" (db started) = Some (mkRole 1 "user") /\
  status_of
    (reply (fst (app (bcrypt := test_bcrypt)
                   (mkRequest POST path_register None
                      (mkBody (Some "bob") None)) started)))
  = Some 400 /\
  status_of
    (reply (fst (app (bcrypt := test_bcrypt)
                   (mkRequest POST path_register None
                      (mkBody None (Some "secret"))) started)))
  = Some 400.
Proof.
  assert (Hh : healthy started) by constructor.
  assert (Hr : role_by_name "user" (db started) = Some (mkRole 1 "user"))
    by reflexivity.
  destruct (registration_with_a_missing_field (bcrypt := test_bcrypt) None
              (Some "bob") "secret" (mkRole 1 "user") started Hh Hr)
    as [[H1 _] [H2 _]].
  split; [exact Hh |]. split; [exact Hr |]. split.
  - rewrite H1. reflexivity.
  - rewrite H2. reflexivity.
Defined.

Lemma login_without_a_password_witness :
  next_fault started = None /\
  is_Some (user_by_login "admin" (db started)) /\
  user_by_login "nobody" (db started) = None /\
  status_of
    (reply (fst (app (bcrypt := test_bcrypt)
                   (mkRequest POST path_login None (mkBody (Some "admin") None))
                   started)))
  = Some 500 /\
  status_of
    (reply (fst (app (bcrypt := test_bcrypt)
                   (mkRequest POST path_login None (mkBody (Some "nobody") None))
                   started)))
  = Some 401.
Proof.
  assert (Hf : next_fault started = None) by reflexivity.
  assert (Hu : is_Some (user_by_login "admin" (db started)))
    by (eexists; reflexivity).
  assert (Hn : user_by_login "nobody" (db started) = None) by reflexivity.
  destruct (login_without_a_password (bcrypt := test_bcrypt) None "admin"
              started Hf) as (H500 & _ & _).
  destruct (login_without_a_password (bcrypt := test_bcrypt) None "nobody"
              started Hf) as (_ & H401 & _).
  split; [exact Hf |]. split; [exact Hu |]. split; [exact Hn |]. split.
  - rewrite (H500 Hu). reflexivity.
  - rewrite (H401 Hn). reflexivity.
Defined.

Lemma login_snapshots_the_row_witness :
  next_fault started = None /\
  wf_store (db started) /\
  user_by_login "admin" (db started)
  = Some (mkUser 1 "admin" "$2b$10$admin" 2) /\
  reply (fst (app (bcrypt := test_bcrypt)
                (mkRequest POST path_login None
                           (mkBody (Some "admin") (Some "admin"))) started))
  = Redirect "/profile".
Proof.
  assert (Hf : next_fault started = None) by reflexivity.
  assert (Hwf : wf_store (db started))
    by (apply (bool_decide_unpack _); vm_compute; exact I).
  assert (Hu : user_by_login "admin" (db started)
               = Some (mkUser 1 "admin" "$2b$10$admin" 2)) by reflexivity.
  destruct (login_snapshots_the_row (bcrypt := test_bcrypt) None "admin"
              "admin" _ started Hf Hwf Hu eq_refl) as (r & _ & Hreply & _).
  exact (conj Hf (conj Hwf (conj Hu Hreply))).
Defined.

Lemma login_keeps_the_session_id_witness :
  sessions bob_logged_in !! 1%nat = Some (mkSession (Some bob_identity)) /\
  set_cookie
    (fst (app (bcrypt := test_bcrypt)
            (mkRequest POST path_login bob_token
                       (mkBody (Some "admin") (Some "admin"))) bob_logged_in))
  = None /\
  sessions
    (snd (app (bcrypt := test_bcrypt)
            (mkRequest POST path_login bob_token
                       (mkBody (Some "admin") (Some "admin"))) bob_logged_in))
    !! 1%nat
  = Some (mkSession (Some (mkIdentity 1 "admin" "admin"))).
Proof.
  assert (Hs : sessions bob_logged_in !! 1%nat
               = Some (mkSession (Some bob_identity)))
    by (vm_compute; reflexivity).
  destruct (login_keeps_the_session_id (bcrypt := test_bcrypt) 1%nat _
              "admin" "admin" (mkUser 1 "admin" "$2b$10$admin" 2)
              (mkRole 2 "admin") bob_logged_in Hs eq_refl eq_refl eq_refl
              eq_refl) as (Hcookie & Hsame & _).
  exact (conj Hs (conj Hcookie Hsame)).
Defined.

Lemma admin_guard_rejections_are_uncaught_witness :
  current_user bob_token (with_faults [Some store_down] bob_logged_in)
  = Some bob_identity /\
  fst (app (bcrypt := test_bcrypt)
         (mkRequest GET path_admin bob_token no_form)
         (with_faults [Some store_down] bob_logged_in))
  = mkResponse (ErrorPage (ConnectionError store_down)) None /\
  fst (app (bcrypt := test_bcrypt)
         (mkRequest GET path_admin bob_token no_form)
         (with_runtime Express4 (with_faults [Some store_down] bob_logged_in)))
  = mkResponse (Unanswered (ConnectionError store_down)) None /\
  exists e : JsError,
    fst (app (bcrypt := test_bcrypt)
           (mkRequest GET path_admin bob_token no_form)
           (with_db orphaned bob_logged_in))
    = mkResponse (ErrorPage e) None.
Proof.
  assert (Hc : current_user bob_token
                 (with_faults [Some store_down] bob_logged_in)
               = Some bob_identity) by (vm_compute; reflexivity).
  assert (Hc4 : current_user bob_token
                  (with_runtime Express4
                     (with_faults [Some store_down] bob_logged_in))
                = Some bob_identity) by (vm_compute; reflexivity).
  assert (Hc' : current_user bob_token (with_db orphaned bob_logged_in)
                = Some bob_identity) by (vm_compute; reflexivity).
  split; [exact Hc |]. split; [| split].
  - exact (proj1 (admin_guard_rejections_are_uncaught
                    (bcrypt := test_bcrypt) bob_token no_form
                    bob_identity _ Hc)
             store_down [] eq_refl).
  - exact (proj1 (admin_guard_rejections_are_uncaught
                    (bcrypt := test_bcrypt) bob_token no_form
                    bob_identity _ Hc4)
             store_down [] eq_refl).
  - exact (proj1 (proj2 (admin_guard_rejections_are_uncaught
                           (bcrypt := test_bcrypt) bob_token no_form
                           bob_identity _ Hc'))
             (mkUser 2 "bob" "$2b$10$secret" 1) eq_refl eq_refl eq_refl).
Defined.

Lemma failed_bootstrap_blocks_registration_witness :
  faults (with_faults [None; Some store_down] first_start)
  = [None; Some store_down] /\
  roles (db (with_faults [None; Some store_down] first_start)) = [] /\
  db interrupted = db first_start /\
  fst (app (bcrypt := test_bcrypt) bob_registers interrupted)
  = mkResponse (Send 400 "Роль не найдена") None.
Proof.
  assert (Hf : faults (with_faults [None; Some store_down] first_start)
               = [None; Some store_down]) by reflexivity.
  assert (Hr : roles (db (with_faults [None; Some store_down] first_start))
               = []) by reflexivity.
  destruct (failed_bootstrap_blocks_registration (bcrypt := test_bcrypt)
              None bob (with_faults [None; Some store_down] first_start)
              store_down [] Hf Hr (List.Forall_nil _))
    as (Hdb & Hreply).
  exact (conj Hf (conj Hr (conj Hdb Hreply))).
Defined.

Lemma reachable_stores_keep_the_schema_witness :
  wf_store (db first_start) /\
  Forall (fun f => f = None)
         (take 2 (faults (with_faults [None; None; Some store_down]
                            first_start))) /\
  wf_store
    (db (serve (bcrypt := test_bcrypt) [bob_registers; bob_logs_in]
           (startup (bcrypt := test_bcrypt)
              (with_faults [None; None; Some store_down] first_start)))) /\
  is_Some
    (role_by_name "user"
       (db (serve (bcrypt := test_bcrypt) [bob_registers; bob_logs_in]
              (startup (bcrypt := test_bcrypt)
                 (with_faults [None; None; Some store_down] first_start))))).
Proof.
  assert (Hwf : wf_store (db first_start))
    by (apply (bool_decide_unpack _); vm_compute; exact I).
  assert (Htake : Forall (fun f => f = None)
                    (take 2 (faults (with_faults [None; None; Some store_down]
                                       first_start))))
    by (repeat constructor).
  destruct (reachable_stores_keep_the_schema (bcrypt := test_bcrypt)
              [bob_registers; bob_logs_in]
              (with_faults [None; None; Some store_down] first_start) Hwf)
    as (Hwf' & _ & Hrole).
  exact (conj Hwf (conj Htake (conj Hwf' (Hrole Htake)))).
Defined.

Lemma default_admin_reaches_the_admin_page_witness :
  healthy first_start /\
  wf_store (db first_start) /\
  users (db first_start) = [] /\
  reply (fst (app (bcrypt := test_bcrypt)
                (mkRequest GET path_admin (Some 0%nat) no_form)
                (snd (app (bcrypt := test_bcrypt)
                        (mkRequest POST path_login None
                           (mkBody (Some "admin") (Some "admin")))
                        started))))
  = Send 200 admin_text.
Proof.
  assert (Hh : healthy first_start) by constructor.
  assert (Hwf : wf_store (db first_start))
    by (apply (bool_decide_unpack _); vm_compute; exact I).
  assert (He : users (db first_start) = []) by reflexivity.
  destruct (default_admin_reaches_the_admin_page (bcrypt := test_bcrypt)
              test_sound None no_form first_start Hh Hwf He)
    as (_ & _ & Hadmin).
  exact (conj Hh (conj Hwf (conj He Hadmin))).
Defined.

Lemma registered_user_is_refused_the_admin_page_witness :
  healthy started /\
  wf_store (db started) /\
  user_by_login "bob" (db started) = None /\
  reply (fst (app (bcrypt := test_bcrypt)
                (mkRequest GET path_admin bob_token no_form) bob_logged_in))
  = Send 403 forbidden_text.
Proof.
  assert (Hh : healthy started) by constructor.
  assert (Hwf : wf_store (db started))
    by (apply (bool_decide_unpack _); vm_compute; exact I).
  assert (Hrole : is_Some (role_by_name "user" (db started)))
    by (eexists; reflexivity).
  assert (Hfree : user_by_login "bob" (db started) = None) by reflexivity.
  pose proof (registered_user_is_refused_the_admin_page
                (bcrypt := test_bcrypt) test_sound None None no_form
                "bob" "secret" started Hh Hwf Hrole Hfree) as H403.
  exact (conj Hh (conj Hwf (conj Hfree H403))).
Defined.

Lemma registering_twice_keeps_one_row_witness :
  healthy started /\
  wf_store (db started) /\
  user_by_login "bob" (db started) = None /\
  status_of
    (reply (fst (app (bcrypt := test_bcrypt)
                   (mkRequest POST path_register None
                      (mkBody (Some "bob") (Some "other")))
                   (snd (app (bcrypt := test_bcrypt) bob_registers started)))))
  = Some 400.
Proof.
  assert (Hh : healthy started) by constructor.
  assert (Hwf : wf_store (db started))
    by (apply (bool_decide_unpack _); vm_compute; exact I).
  assert (Hrole : is_Some (role_by_name "user" (db started)))
    by (eexists; reflexivity).
  assert (Hfree : user_by_login "bob" (db started) = None) by reflexivity.
  destruct (registering_twice_keeps_one_row (bcrypt := test_bcrypt)
              None None "bob" "secret" (Some "other") started
              Hh Hwf Hrole Hfree) as (_ & H400 & _).
  exact (conj Hh (conj Hwf (conj Hfree H400))).
Defined.

Lemma interrupted_bootstrap_is_resumed_witness :
  healthy (startup (bcrypt := test_bcrypt)
             (with_faults [None; None; Some store_down] first_start)) /\
  db (startup (bcrypt := test_bcrypt)
        (startup (bcrypt := test_bcrypt)
           (with_faults [None; None; Some store_down] first_start)))
  = db started.
Proof.
  assert (Hh : healthy
                 (startup (bcrypt := test_bcrypt)
                    (with_faults [None; None; Some store_down] first_start)))
    by constructor.
  split; [exact Hh |].
  destruct (interrupted_bootstrap_is_resumed (bcrypt := test_bcrypt)
              (with_faults [None; None; Some store_down] first_start)
              (startup (bcrypt := test_bcrypt)
                 (with_faults [None; None; Some store_down] first_start))
              eq_refl Hh) as [H | H]; rewrite H; reflexivity.
Defined.

Lemma no_request_makes_an_administrator_witness :
  wf_store (db started) /\
  role_by_name "admin" (db started) = Some (mkRole 2 "admin") /\
  users_with_role 2
    (db (serve (bcrypt := test_bcrypt) [bob_registers; bob_logs_in] started))
  = [mkUser 1 "admin" "$2b$10$admin" 2].
Proof.
  assert (Hwf : wf_store (db started))
    by (apply (bool_decide_unpack _); vm_compute; exact I).
  assert (Ha : role_by_name "admin" (db started) = Some (mkRole 2 "admin"))
    by reflexivity.
  split; [exact Hwf |]. split; [exact Ha |].
  exact (eq_trans
           (no_request_makes_an_administrator (bcrypt := test_bcrypt)
              [bob_registers; bob_logs_in] started (mkRole 2 "admin") Hwf Ha)
           eq_refl).
Defined.
